(** * Flight-fare data validation and quality scoring

    A shallow embedding of [src/data/validation.py] (class
    [FlightDataValidator]), [notebooks/scripts/data_quality.py] and
    [create_route_feature] of [notebooks/scripts/analysis.py], together
    with the part of pandas, numpy and pandera these files call into.

    Conventions of the model.
    - A numpy [float64] is an exact rational, [NaN], or a signed infinity:
      rounding and signed zeros are outside the model.  An [int64] cell is an
      integer of [Z]; overflow of 64-bit arithmetic is outside the model.
    - A cell of a table is a string, a float or an integer.  A missing value is
      the float [NaN], as [pandas.read_csv] produces it.
    - A Python exception is a value of [exn]; a function that may raise returns
      a [result].
    - Mutable objects live in a [heap]; a Python variable holding a DataFrame
      is a location of that heap.
    - [print] and [logger] calls have no effect on any returned value and are
      left out, except that the expressions they format are still evaluated,
      since these may raise. *)

From stdpp Require Import gmap strings list sorting.
From Stdlib Require Import ZArith QArith Qabs String Ascii List Bool Lia DecimalString.
Import ListNotations.

Close Scope Q_scope.
Local Open Scope string_scope.
Local Open Scope list_scope.

(** ** numpy scalars *)

Module Float64.

Local Open Scope Q_scope.

Inductive t : Type :=
| Finite (q : Q)
| NaN
| Inf (negative : bool).

Definition of_Z (z : Z) : t := Finite (inject_Z z).
Definition of_nat (n : nat) : t := of_Z (Z.of_nat n).

Definition Qltb (a b : Q) : bool := negb (Qle_bool b a).

Definition neg (x : t) : t :=
  match x with
  | Finite q => Finite (- q)
  | NaN => NaN
  | Inf s => Inf (negb s)
  end.

Definition add (x y : t) : t :=
  match x, y with
  | NaN, _ | _, NaN => NaN
  | Finite a, Finite b => Finite (a + b)
  | Inf s, Finite _ | Finite _, Inf s => Inf s
  | Inf s, Inf s' => if Bool.eqb s s' then Inf s else NaN
  end.

Definition sub (x y : t) : t := add x (neg y).

Definition abs (x : t) : t :=
  match x with
  | Finite q => Finite (Qabs q)
  | NaN => NaN
  | Inf _ => Inf false
  end.

Definition mul (x y : t) : t :=
  match x, y with
  | NaN, _ | _, NaN => NaN
  | Finite a, Finite b => Finite (a * b)
  | Inf s, Finite q | Finite q, Inf s =>
      if Qeq_bool q 0 then NaN else Inf (xorb s (Qltb q 0))
  | Inf s, Inf s' => Inf (xorb s s')
  end.

(** numpy's [true_divide]: a division by zero is not an exception, it gives
    [nan] for [0/0] and an infinity otherwise (with a [RuntimeWarning]). *)
Definition div (x y : t) : t :=
  match x, y with
  | NaN, _ | _, NaN => NaN
  | Finite a, Finite b =>
      if Qeq_bool b 0
      then (if Qeq_bool a 0 then NaN else Inf (Qltb a 0))
      else Finite (a / b)
  | Finite _, Inf _ => Finite 0
  | Inf s, Finite b => Inf (xorb s (Qltb b 0))
  | Inf _, Inf _ => NaN
  end.

(** Comparisons: every comparison with [nan] is false. *)
Definition ltb (x y : t) : bool :=
  match x, y with
  | NaN, _ | _, NaN => false
  | Finite a, Finite b => Qltb a b
  | Finite _, Inf s => negb s
  | Inf s, Finite _ => s
  | Inf s, Inf s' => s && negb s'
  end.

Definition gtb (x y : t) : bool := ltb y x.

Definition eqb (x y : t) : bool :=
  match x, y with
  | Finite a, Finite b => Qeq_bool a b
  | Inf s, Inf s' => Bool.eqb s s'
  | _, _ => false
  end.

Definition isnan (x : t) : bool :=
  match x with NaN => true | _ => false end.

(** The square root of a rational, rounded down to a multiple of [2^-52]. *)
Definition Qsqrt (q : Q) : Q :=
  Z.sqrt (Qnum q * Zpos (Qden q) * 4 ^ 52) # (Qden q * 2 ^ 52).

Definition sqrt (x : t) : t :=
  match x with
  | Finite q => if Qltb q 0 then NaN else Finite (Qsqrt q)
  | NaN => NaN
  | Inf s => if s then NaN else Inf false
  end.

(** Equality of values: the same number, both [nan], or the same infinity. *)
Definition equiv (x y : t) : Prop :=
  match x, y with
  | Finite a, Finite b => a == b
  | NaN, NaN => True
  | Inf s, Inf s' => s = s'
  | _, _ => False
  end.

End Float64.

(** ** Exceptions and results *)

(** One row of pandera's [failure_cases] table, as [to_dict("records")] gives
    it: the column, the row index ([None] for a failure of the column as a
    whole) and the failing check or its error message. *)
Record failure_case : Type := {
  fc_column : string;
  fc_index : option nat;
  fc_check : string
}.

Inductive exn : Type :=
| KeyError (key : string)
| TypeError
| ValueError
| NameError
| SchemaErrors (failure_cases : list failure_case).

Inductive result (A : Type) : Type :=
| Return (a : A)
| Raise (e : exn).
Arguments Return {A} a.
Arguments Raise {A} e.

#[global] Instance result_ret : MRet result := fun A a => Return a.
#[global] Instance result_bind : MBind result := fun A B f m =>
  match m with
  | Return a => f a
  | Raise e => Raise e
  end.

Definition returns {A : Type} (m : result A) : bool :=
  match m with Return _ => true | Raise _ => false end.

(** [str(n)] for a non-negative integer. *)
Definition str_of_nat (n : nat) : string :=
  NilEmpty.string_of_uint (Nat.to_uint n).

(** ** pandas: tables, columns and their operations *)

Module pandas.

Inductive cell : Type :=
| Str (s : string)
| Float (x : Float64.t)
| Int (z : Z).

Inductive dtype : Type := object | float64 | int64.

Definition nan : cell := Float Float64.NaN.

(** A DataFrame: the column labels, the dtype of each column and the rows.
    Column labels are taken to be distinct, as [read_csv] makes them. *)
Record DataFrame : Type := {
  columns : list string;
  dtypes : list dtype;
  values : list (list cell)
}.

(** A column on its own: its dtype and its cells, in row order. *)
Record Series : Type := {
  dtype_ : dtype;
  data : list cell
}.

(** [pd.DataFrame()] *)
Definition empty_frame : DataFrame :=
  {| columns := []; dtypes := []; values := [] |}.

(** [len(df)] and [df.shape[1]] *)
Definition len (df : DataFrame) : nat := length (values df).
Definition shape1 (df : DataFrame) : nat := length (columns df).

(** [col in df.columns] *)
Definition contains (cols : list string) (col : string) : bool :=
  existsb (String.eqb col) cols.

Fixpoint get_loc (cols : list string) (col : string) : option nat :=
  match cols with
  | [] => None
  | c :: cols' => if String.eqb col c then Some 0 else S <$> get_loc cols' col
  end.

Definition column_at (i : nat) (rows : list (list cell)) : list cell :=
  map (fun row => nth i row nan) rows.

(** [df[col]] *)
Definition getitem (df : DataFrame) (col : string) : result Series :=
  match get_loc (columns df) col with
  | Some i => Return {| dtype_ := nth i (dtypes df) object;
                        data := column_at i (values df) |}
  | None => Raise (KeyError col)
  end.

(** [df[col] = s] on a table value: replaces the column when the label
    exists, appends it otherwise. *)
Definition set_column (i : nat) (s : list cell) (rows : list (list cell))
  : list (list cell) :=
  zip_with (fun row c => <[i := c]> row) rows s.

Definition append_column (s : list cell) (rows : list (list cell))
  : list (list cell) :=
  zip_with (fun row c => row ++ [c]) rows s.

Definition setitem (df : DataFrame) (col : string) (s : Series) : DataFrame :=
  match get_loc (columns df) col with
  | Some i => {| columns := columns df;
                 dtypes := <[i := dtype_ s]> (dtypes df);
                 values := set_column i (data s) (values df) |}
  | None => {| columns := columns df ++ [col];
               dtypes := dtypes df ++ [dtype_ s];
               values := append_column (data s) (values df) |}
  end.

(** *** Missing values *)

Definition isna (c : cell) : bool :=
  match c with
  | Float Float64.NaN => true
  | _ => false
  end.

(** [mask.sum()] for a boolean column *)
Definition count_true (mask : list bool) : nat :=
  length (filter (fun b : bool => b) mask).

(** [df.isnull().sum().to_dict()]: the number of missing cells of each
    column, in column order. *)
Definition isnull_sum (df : DataFrame) : list (string * nat) :=
  imap (fun i col => (col, count_true (map isna (column_at i (values df)))))
       (columns df).

(** [df.isnull().sum().sum()] *)
Definition isnull_sum_sum (df : DataFrame) : nat :=
  sum_list (map snd (isnull_sum df)).

(** [df.isnull().any(axis=1)]: the rows with at least one missing cell. *)
Definition isnull_any_rows (df : DataFrame) : list bool :=
  map (existsb isna) (values df).

(** *** Duplicates *)

(** Equality of cells as [duplicated] sees it: missing values are equal to
    each other, an integer equals the float of the same value. *)
Definition cell_eqb (a b : cell) : bool :=
  match a, b with
  | Str s, Str s' => String.eqb s s'
  | Float Float64.NaN, Float Float64.NaN => true
  | Float x, Float y => Float64.eqb x y
  | Int x, Int y => Z.eqb x y
  | Int x, Float y | Float y, Int x => Float64.eqb (Float64.of_Z x) y
  | _, _ => false
  end.

Fixpoint row_eqb (r r' : list cell) : bool :=
  match r, r' with
  | [], [] => true
  | c :: r, c' :: r' => cell_eqb c c' && row_eqb r r'
  | _, _ => false
  end.

(** [keep="first"]: a row is marked when an earlier row has the same key. *)
Fixpoint duplicated_keys (seen keys : list (list cell)) : list bool :=
  match keys with
  | [] => []
  | k :: keys' => existsb (row_eqb k) seen :: duplicated_keys (k :: seen) keys'
  end.

(** [df.duplicated()] *)
Definition duplicated (df : DataFrame) : list bool :=
  duplicated_keys [] (values df).

Fixpoint get_locs (cols subset : list string) : result (list nat) :=
  match subset with
  | [] => Return []
  | col :: subset' =>
      match get_loc cols col with
      | Some i => ixs ← get_locs cols subset'; Return (i :: ixs)
      | None => Raise (KeyError col)
      end
  end.

(** [df.duplicated(subset=cols)] *)
Definition duplicated_subset (df : DataFrame) (subset : list string)
  : result (list bool) :=
  ixs ← get_locs (columns df) subset;
  Return (duplicated_keys []
            (map (fun row => map (fun i => nth i row nan) ixs) (values df))).

(** *** Element-wise arithmetic and comparison

    On a column that holds strings, Python's own operators are applied cell
    by cell: [+] concatenates two strings, everything else raises
    [TypeError]. *)

Definition to_float (c : cell) : result Float64.t :=
  match c with
  | Str _ => Raise TypeError
  | Float x => Return x
  | Int z => Return (Float64.of_Z z)
  end.

Definition add_cell (a b : cell) : result cell :=
  match a, b with
  | Str s, Str s' => Return (Str (s +:+ s'))
  | Int x, Int y => Return (Int (x + y))
  | _, _ => x ← to_float a; y ← to_float b; Return (Float (Float64.add x y))
  end.

Definition sub_cell (a b : cell) : result cell :=
  match a, b with
  | Int x, Int y => Return (Int (x - y))
  | _, _ => x ← to_float a; y ← to_float b; Return (Float (Float64.sub x y))
  end.

Definition abs_cell (a : cell) : result cell :=
  match a with
  | Str _ => Raise TypeError
  | Float x => Return (Float (Float64.abs x))
  | Int z => Return (Int (Z.abs z))
  end.

Definition gt_cell (bound : Float64.t) (a : cell) : result bool :=
  x ← to_float a; Return (Float64.gtb x bound).

Definition lt_cell (bound : Float64.t) (a : cell) : result bool :=
  x ← to_float a; Return (Float64.ltb x bound).

Definition zip_with_result {A B C : Type} (f : A -> B -> result C)
    (l : list A) (k : list B) : result (list C) :=
  mapM (fun p => f (fst p) (snd p)) (zip l k).

(** The dtype of the result of an arithmetic operation on two columns. *)
Definition result_type (d1 d2 : dtype) : dtype :=
  match d1, d2 with
  | object, _ | _, object => object
  | int64, int64 => int64
  | _, _ => float64
  end.

(** [s1 + s2], [s1 - s2], [abs(s)], [s > x], [s < x], [m1 | m2] *)
Definition Series_add (s1 s2 : Series) : result Series :=
  cs ← zip_with_result add_cell (data s1) (data s2);
  Return {| dtype_ := result_type (dtype_ s1) (dtype_ s2); data := cs |}.
Definition Series_sub (s1 s2 : Series) : result Series :=
  cs ← zip_with_result sub_cell (data s1) (data s2);
  Return {| dtype_ := result_type (dtype_ s1) (dtype_ s2); data := cs |}.
Definition Series_abs (s : Series) : result Series :=
  cs ← mapM abs_cell (data s);
  Return {| dtype_ := dtype_ s; data := cs |}.
Definition Series_gt (s : Series) (x : Float64.t) : result (list bool) :=
  mapM (gt_cell x) (data s).
Definition Series_lt (s : Series) (x : Float64.t) : result (list bool) :=
  mapM (lt_cell x) (data s).
Definition mask_or (m1 m2 : list bool) : list bool := zip_with orb m1 m2.

(** [df[mask]], [df[[c1, ..., cn]]] and [df.head(n)]: each one builds a new
    table. *)
Definition getitem_mask (df : DataFrame) (mask : list bool) : DataFrame :=
  {| columns := columns df;
     dtypes := dtypes df;
     values := map snd (filter fst (zip mask (values df))) |}.

Definition getitem_list (df : DataFrame) (cols : list string)
  : result DataFrame :=
  ixs ← get_locs (columns df) cols;
  Return {| columns := cols;
            dtypes := map (fun i => nth i (dtypes df) object) ixs;
            values := map (fun row => map (fun i => nth i row nan) ixs)
                          (values df) |}.

Definition head (df : DataFrame) (n : nat) : DataFrame :=
  {| columns := columns df; dtypes := dtypes df; values := take n (values df) |}.

(** *** Aggregates of a column

    Missing values are skipped.  A column with a string in it is not
    numeric: [mean], [median] and [std] raise [TypeError]. *)

Definition _ensure_numeric (s : Series) : result (list Float64.t) :=
  mapM to_float (data s).

Definition dropna (xs : list Float64.t) : list Float64.t :=
  filter (fun x => negb (Float64.isnan x)) xs.

Definition total (xs : list Float64.t) : Float64.t :=
  foldr Float64.add (Float64.of_Z 0) xs.

Definition Series_mean (s : Series) : result Float64.t :=
  xs ← _ensure_numeric s;
  let v := dropna xs in
  Return (Float64.div (total v) (Float64.of_nat (length v))).

Fixpoint insert_sorted (x : Float64.t) (v : list Float64.t) : list Float64.t :=
  match v with
  | [] => [x]
  | y :: v' => if Float64.ltb y x then y :: insert_sorted x v' else x :: v
  end.

Definition sort (v : list Float64.t) : list Float64.t :=
  foldr insert_sorted [] v.

Definition Series_median (s : Series) : result Float64.t :=
  xs ← _ensure_numeric s;
  let v := sort (dropna xs) in
  let n := length v in
  if (n =? 0)%nat then Return Float64.NaN
  else if Nat.even n
       then Return (Float64.div
                      (Float64.add (nth (n / 2 - 1) v Float64.NaN)
                                   (nth (n / 2) v Float64.NaN))
                      (Float64.of_Z 2))
       else Return (nth (n / 2) v Float64.NaN).

(** Sample standard deviation, divisor [n - 1]. *)
Definition Series_std (s : Series) : result Float64.t :=
  xs ← _ensure_numeric s;
  let v := dropna xs in
  let n := length v in
  let m := Float64.div (total v) (Float64.of_nat n) in
  let sq := map (fun x => Float64.mul (Float64.sub x m) (Float64.sub x m)) v in
  if (n =? 0)%nat then Return Float64.NaN
  else Return (Float64.sqrt
                 (Float64.div (total sq) (Float64.of_Z (Z.of_nat n - 1)))).

(** [min] and [max] also order strings; a column that mixes strings and
    numbers cannot be ordered. *)
Definition smaller (a b : cell) : result cell :=
  match a, b with
  | Str s, Str s' => Return (if String.ltb s' s then b else a)
  | Str _, _ | _, Str _ => Raise TypeError
  | _, _ => x ← to_float a; y ← to_float b;
            Return (if Float64.ltb y x then b else a)
  end.

Definition larger (a b : cell) : result cell :=
  match a, b with
  | Str s, Str s' => Return (if String.ltb s s' then b else a)
  | Str _, _ | _, Str _ => Raise TypeError
  | _, _ => x ← to_float a; y ← to_float b;
            Return (if Float64.ltb x y then b else a)
  end.

Fixpoint reduce (f : cell -> cell -> result cell) (acc : cell) (s : list cell)
  : result cell :=
  match s with
  | [] => Return acc
  | c :: s' => acc' ← f acc c; reduce f acc' s'
  end.

Definition Series_reduce (f : cell -> cell -> result cell) (s : Series)
  : result cell :=
  match filter (fun c => negb (isna c)) (data s) with
  | [] => Return nan
  | c :: s' => reduce f c s'
  end.

Definition Series_min : Series -> result cell := Series_reduce smaller.
Definition Series_max : Series -> result cell := Series_reduce larger.

(** [float(x)] and the format specification [:,.2f]: neither accepts a
    string that is not a number; the table cells that are strings are taken
    not to spell numbers. *)
Definition float_ (c : cell) : result Float64.t :=
  match c with
  | Str _ => Raise ValueError
  | Float x => Return x
  | Int z => Return (Float64.of_Z z)
  end.


(** *** Operations of the reporting and analysis scripts *)

(** Every row has one cell per column, and every column has a dtype. *)
Definition well_formed (df : DataFrame) : bool :=
  (length (dtypes df) =? length (columns df))%nat
  && forallb (fun row => (length row =? length (columns df))%nat) (values df).

(** [s + sep] for a Python string [sep].  On a column of dtype object the
    rows with a missing value are skipped and stay missing; a cell that is
    not a string cannot be added to a string.  A numeric column cannot be
    added to a string at all. *)
Definition add_str_cell (sep : string) (c : cell) : result cell :=
  match c with
  | Str s => Return (Str (s +:+ sep))
  | Float Float64.NaN => Return nan
  | _ => Raise TypeError
  end.

Definition Series_add_str (s : Series) (sep : string) : result Series :=
  match dtype_ s with
  | object =>
      cs ← mapM (add_str_cell sep) (data s);
      Return {| dtype_ := object; data := cs |}
  | _ => Raise TypeError
  end.

(** [s1 + s2] where [s1] is of dtype object: the rows where either value is
    missing are skipped and give a missing value, the other rows are added
    with Python's [+]. *)
Definition add_skipna (a b : cell) : result cell :=
  if isna a || isna b then Return nan else add_cell a b.

Definition Series_add_skipna (s1 s2 : Series) : result Series :=
  cs ← zip_with_result add_skipna (data s1) (data s2);
  Return {| dtype_ := result_type (dtype_ s1) (dtype_ s2); data := cs |}.

(** The integer in column [i] of a row (0 when there is none). *)
Definition int_at (i : nat) (row : list cell) : Z :=
  match nth i row nan with
  | Int z => z
  | _ => 0%Z
  end.

(** [df.sort_values(col, ascending=False)] for an integer column at position
    [i], on the rows of the table.  pandas leaves the order of rows with
    equal keys to the sorting algorithm; here it is the one merge sort
    gives, and no property below depends on it. *)
Definition not_below (i : nat) (r1 r2 : list cell) : Prop :=
  (int_at i r2 <= int_at i r1)%Z.

#[global] Instance not_below_dec (i : nat) : RelDecision (not_below i) :=
  fun r1 r2 => decide (int_at i r2 <= int_at i r1)%Z.

Definition sort_values_desc (i : nat) (rows : list (list cell))
  : list (list cell) :=
  merge_sort (not_below i) rows.

End pandas.

(** ** pandera: schemas and their validation *)

Module pandera.
Import pandas.

(** The checks the schema of this repository uses. *)
Inductive CheckKind : Type :=
| str_length (min_value max_value : nat)
| notna                                   (* [lambda s: ~s.isna()] *)
| str_isupper                             (* [lambda s: s.str.isupper()] *)
| greater_than (min_value : Z)
| greater_than_or_equal_to (min_value : Z)
| less_than (max_value : Z)
| isin (allowed_values : list string).

Record Check : Type := {
  kind : CheckKind;
  error : option string
}.

Record Column : Type := {
  col_dtype : dtype;
  checks : list Check;
  nullable : bool;
  required : bool
}.

Record DataFrameSchema : Type := {
  schema_columns : list (string * Column);
  strict : bool
}.

(** Python's [str.isupper], on ASCII letters: at least one upper-case letter
    and no lower-case one. *)
Definition ascii_isupper (c : ascii) : bool :=
  let n := nat_of_ascii c in (65 <=? n)%nat && (n <=? 90)%nat.
Definition ascii_islower (c : ascii) : bool :=
  let n := nat_of_ascii c in (97 <=? n)%nat && (n <=? 122)%nat.
Definition isupper (s : string) : bool :=
  let cs := list_ascii_of_string s in
  existsb ascii_isupper cs && negb (existsb ascii_islower cs).

(** One check on one cell that is not missing. *)
Definition check_cell (k : CheckKind) (c : cell) : bool :=
  match k, c with
  | str_length lo hi, Str s =>
      (lo <=? String.length s)%nat && (String.length s <=? hi)%nat
  | notna, _ => negb (isna c)
  | str_isupper, Str s => isupper s
  | greater_than z, Float x => Float64.gtb x (Float64.of_Z z)
  | greater_than z, Int n => (z <? n)%Z
  | greater_than_or_equal_to z, Float x =>
      Float64.gtb x (Float64.of_Z z) || Float64.eqb x (Float64.of_Z z)
  | greater_than_or_equal_to z, Int n => (z <=? n)%Z
  | less_than z, Float x => Float64.ltb x (Float64.of_Z z)
  | less_than z, Int n => (n <? z)%Z
  | isin allowed, Str s => existsb (String.eqb s) allowed
  | _, _ => false
  end.

Definition kind_name (k : CheckKind) : string :=
  match k with
  | str_length lo hi =>
      "str_length(" +:+ str_of_nat lo +:+ ", " +:+ str_of_nat hi +:+ ")"
  | notna | str_isupper => "<lambda>"
  | greater_than z => "greater_than(" +:+ str_of_nat (Z.to_nat z) +:+ ")"
  | greater_than_or_equal_to z =>
      "greater_than_or_equal_to(" +:+ str_of_nat (Z.to_nat z) +:+ ")"
  | less_than z => "less_than(" +:+ str_of_nat (Z.to_nat z) +:+ ")"
  | isin _ => "isin"
  end.

Definition check_name (c : Check) : string :=
  match error c with
  | Some msg => msg
  | None => kind_name (kind c)
  end.

Definition dtype_eqb (a b : dtype) : bool :=
  match a, b with
  | object, object | float64, float64 | int64, int64 => true
  | _, _ => false
  end.

Definition dtype_name (d : dtype) : string :=
  match d with
  | object => "dtype('object')"
  | float64 => "dtype('float64')"
  | int64 => "dtype('int64')"
  end.

(** One failure record for every row whose entry in [ok] is false. *)
Fixpoint failing_rows (column check : string) (i : nat) (ok : list bool)
  : list failure_case :=
  match ok with
  | [] => []
  | b :: ok' =>
      (if b then []
       else [{| fc_column := column; fc_index := Some i; fc_check := check |}])
      ++ failing_rows column check (S i) ok'
  end.

Definition column_failure (column check : string) : failure_case :=
  {| fc_column := column; fc_index := None; fc_check := check |}.

(** Modelled from the spec: the validation of one declared column by
    pandera's engine, which is a third-party library and not part of the
    repository.  A declared column that is absent gives one schema-level
    error; a column of another dtype gives one type error and its checks are
    not run; otherwise nullability is tested first, then every check in
    declaration order, each on the cells that are not missing, and every
    failing row is collected. *)
Definition validate_column (df : DataFrame) (name : string) (c : Column)
  : list failure_case :=
  match getitem df name with
  | Raise _ =>
      if required c then [column_failure name "column_in_dataframe"] else []
  | Return s =>
      if negb (dtype_eqb (col_dtype c) (dtype_ s))
      then [column_failure name (dtype_name (col_dtype c))]
      else
        (if nullable c then []
         else failing_rows name "not_nullable" 0
                (map (fun x => negb (isna x)) (data s)))
        ++ concat (map (fun chk =>
                          failing_rows name (check_name chk) 0
                            (map (fun x => isna x || check_cell (kind chk) x)
                                 (data s)))
                       (checks c))
  end.

(** Modelled from the spec: all failures of a table against a schema, in
    the order the columns are declared.  Columns of the table that the
    schema does not declare are ignored ([strict=False]). *)
Definition failure_cases_of (schema : DataFrameSchema) (df : DataFrame)
  : list failure_case :=
  concat (map (fun nc => validate_column df (fst nc) (snd nc))
              (schema_columns schema)).

(** Modelled from the spec: [schema.validate(df, lazy=True)] returns the
    table when nothing failed and raises [SchemaErrors], carrying every
    failure, otherwise. *)
Definition validate (schema : DataFrameSchema) (df : DataFrame)
  : result DataFrame :=
  match failure_cases_of schema df with
  | [] => Return df
  | fcs => Raise (SchemaErrors fcs)
  end.

End pandera.

(** ** Python objects: DataFrames behind references *)

Module objects.
Import pandas.

Abbreviation loc := positive.
Abbreviation heap := (gmap positive DataFrame).

(** A computation that reads and writes the heap and may raise.  What was
    written before an exception stays written. *)
Definition M (A : Type) : Type := heap -> result A * heap.

#[global] Instance M_ret : MRet M := fun A a h => (Return a, h).
#[global] Instance M_bind : MBind M := fun A B f m h =>
  match m h with
  | (Return a, h') => f a h'
  | (Raise e, h') => (Raise e, h')
  end.

Definition lift {A : Type} (r : result A) : M A := fun h => (r, h).

(** Reading the object a variable refers to. *)
Definition load (l : loc) : M DataFrame := fun h =>
  match h !! l with
  | Some df => (Return df, h)
  | None => (Raise NameError, h)
  end.

(** A new object, at a location not in use. *)
Definition alloc (df : DataFrame) : M loc := fun h =>
  let l := fresh (dom h) in (Return l, <[l := df]> h).

(** [df.copy()] *)
Definition copy (l : loc) : M loc := df ← load l; alloc df.

(** [df[col]] and [df[col] = s] through a reference; the second one changes
    the object in place. *)
Definition getitem_ref (l : loc) (col : string) : M Series :=
  df ← load l; lift (getitem df col).

Definition setitem_ref (l : loc) (col : string) (s : Series) : M unit :=
  fun h =>
    match h !! l with
    | Some df => (Return tt, <[l := setitem df col s]> h)
    | None => (Raise NameError, h)
    end.

End objects.

(** ** src/data/validation.py *)

Module validation.
Import pandas pandera objects.

Record Warning : Type := {
  rule : string;
  message : string;
  severity : string
}.

Record FareStats : Type := {
  mean : Float64.t;
  median : Float64.t;
  min : Float64.t;
  max : Float64.t;
  std : Float64.t
}.

(** The dict [_calculate_stats] builds; the key ["fare_stats"] may be
    absent. *)
Record Stats : Type := {
  total_rows : nat;
  total_columns : nat;
  missing_values : list (string * nat);
  duplicate_rows : nat;
  fare_stats : option FareStats
}.

(** The dict [validate] returns.  [stats] is [None] for the empty dict the
    result starts with. *)
Record Results : Type := {
  is_valid : bool;
  errors : list failure_case;
  warnings : list Warning;
  stats : option Stats
}.

Definition set_is_valid (b : bool) (r : Results) : Results :=
  {| is_valid := b; errors := errors r; warnings := warnings r; stats := stats r |}.
Definition set_errors (e : list failure_case) (r : Results) : Results :=
  {| is_valid := is_valid r; errors := e; warnings := warnings r; stats := stats r |}.
Definition set_warnings (w : list Warning) (r : Results) : Results :=
  {| is_valid := is_valid r; errors := errors r; warnings := w; stats := stats r |}.
Definition set_stats (s : Stats) (r : Results) : Results :=
  {| is_valid := is_valid r; errors := errors r; warnings := warnings r;
     stats := Some s |}.

Definition check (k : CheckKind) : Check := {| kind := k; error := None |}.
Definition check_error (k : CheckKind) (msg : string) : Check :=
  {| kind := k; error := Some msg |}.

(** [Column(dtype, checks=..., nullable=...)]; [required] is left at its
    default, [True]. *)
Definition column (d : dtype) (cs : list Check) (null : bool) : Column :=
  {| col_dtype := d; checks := cs; nullable := null; required := true |}.

Definition _define_schema : DataFrameSchema :=
  {| schema_columns :=
       [ ("Airline",
          column object
            [ check (str_length 3 100);
              check_error notna "Airline cannot be null" ] false);
         ("Source",
          column object
            [ check (str_length 2 5);
              check_error str_isupper "Source should be uppercase" ] false);
         ("Source Name", column object [] false);
         ("Destination",
          column object
            [ check (str_length 2 5);
              check_error str_isupper "Destination should be uppercase" ] false);
         ("Destination Name", column object [] false);
         ("Departure Date & Time", column object [] false);
         ("Arrival Date & Time", column object [] false);
         ("Duration (hrs)",
          column float64
            [ check (greater_than 0);
              check_error (less_than 50) "Duration too long" ] false);
         ("Stopovers", column object [] false);
         ("Aircraft Type", column object [] true);
         ("Class",
          column object [ check (isin ["Economy"; "Business"; "First"]) ] false);
         ("Booking Source", column object [] false);
         ("Base Fare (BDT)",
          column float64
            [ check_error (greater_than 0) "Base fare must be positive";
              check (less_than 1000000) ] false);
         ("Tax & Surcharge (BDT)",
          column float64
            [ check (greater_than_or_equal_to 0);
              check (less_than 500000) ] false);
         ("Total Fare (BDT)",
          column float64
            [ check_error (greater_than 0) "Total fare must be positive";
              check (less_than 1500000) ] false);
         ("Seasonality", column object [] false);
         ("Days Before Departure",
          column int64
            [ check (greater_than_or_equal_to 0);
              check (less_than 365) ] false) ];
     strict := false |}.

Record FlightDataValidator : Type := { schema : DataFrameSchema }.

(** [FlightDataValidator()] *)
Definition init : FlightDataValidator := {| schema := _define_schema |}.

Definition fare_cols : list string :=
  ["Base Fare (BDT)"; "Tax & Surcharge (BDT)"; "Total Fare (BDT)"].

Definition duplicate_cols : list string :=
  ["Airline"; "Source"; "Destination"; "Departure Date & Time"].

(** Rule 1: Total Fare = Base Fare + Tax & Surcharge, within 1 BDT. *)
Definition fare_rule (df : DataFrame) (warnings : list Warning)
  : result (list Warning) :=
  if forallb (contains (columns df)) fare_cols then
    base ← getitem df "Base Fare (BDT)";
    tax ← getitem df "Tax & Surcharge (BDT)";
    calculated_total ← Series_add base tax;
    total ← getitem df "Total Fare (BDT)";
    d ← Series_sub calculated_total total;
    diff ← Series_abs d;
    mask ← Series_gt diff (Float64.of_Z 1);
    let mismatches := count_true mask in
    if (0 <? mismatches)%nat then
      Return (warnings ++
              [ {| rule := "Total Fare Calculation";
                   message := str_of_nat mismatches
                              +:+ " rows have Total Fare != Base Fare + Tax";
                   severity := "warning" |} ])
    else Return warnings
  else Return warnings.

(** Rule 2: duplicate flights. *)
Definition duplicate_rule (df : DataFrame) (warnings : list Warning)
  : result (list Warning) :=
  if forallb (contains (columns df)) duplicate_cols then
    mask ← duplicated_subset df duplicate_cols;
    let duplicates := count_true mask in
    if (0 <? duplicates)%nat then
      Return (warnings ++
              [ {| rule := "Duplicate Flights";
                   message := str_of_nat duplicates
                              +:+ " potential duplicate flight records found";
                   severity := "info" |} ])
    else Return warnings
  else Return warnings.

(** Rule 3: unusual fares. *)
Definition outlier_rule (df : DataFrame) (warnings : list Warning)
  : result (list Warning) :=
  if contains (columns df) "Total Fare (BDT)" then
    fare ← getitem df "Total Fare (BDT)";
    median_fare ← Series_median fare;
    fare_hi ← getitem df "Total Fare (BDT)";
    hi ← Series_gt fare_hi (Float64.mul median_fare (Float64.of_Z 10));
    fare_lo ← getitem df "Total Fare (BDT)";
    lo ← Series_lt fare_lo (Float64.mul median_fare (Float64.Finite (1 # 10)));
    let outliers := count_true (mask_or hi lo) in
    if (0 <? outliers)%nat then
      Return (warnings ++
              [ {| rule := "Fare Outliers";
                   message := str_of_nat outliers
                              +:+ " rows with extreme fares (10x or 0.1x median)";
                   severity := "info" |} ])
    else Return warnings
  else Return warnings.

(** [_check_business_rules(self, df)]; [self] is not used.  The three
    blocks of the method run one after the other on the same list. *)
Definition _check_business_rules (df : DataFrame) : result (list Warning) :=
  let warnings := [] in
  warnings ← fare_rule df warnings;
  warnings ← duplicate_rule df warnings;
  warnings ← outlier_rule df warnings;
  Return warnings.

(** [_calculate_stats(self, df)]; [self] is not used. *)
Definition _calculate_stats (df : DataFrame) : result Stats :=
  let stats :=
    {| total_rows := len df;
       total_columns := shape1 df;
       missing_values := isnull_sum df;
       duplicate_rows := count_true (duplicated df);
       fare_stats := None |} in
  if contains (columns df) "Total Fare (BDT)" then
    fare ← getitem df "Total Fare (BDT)";
    mean_ ← Series_mean fare;
    fare ← getitem df "Total Fare (BDT)";
    median_ ← Series_median fare;
    fare ← getitem df "Total Fare (BDT)";
    min_ ← Series_min fare ≫= float_;
    fare ← getitem df "Total Fare (BDT)";
    max_ ← Series_max fare ≫= float_;
    fare ← getitem df "Total Fare (BDT)";
    std_ ← Series_std fare;
    Return {| total_rows := total_rows stats;
              total_columns := total_columns stats;
              missing_values := missing_values stats;
              duplicate_rows := duplicate_rows stats;
              fare_stats := Some {| mean := mean_; median := median_;
                                     min := min_; max := max_; std := std_ |} |}
  else Return stats.

(** [validate(self, df)], as a function of the table [df] refers to. *)
Definition validate (self : FlightDataValidator) (df : DataFrame)
  : result Results :=
  let results :=
    {| is_valid := false; errors := []; warnings := []; stats := None |} in
  results ← match pandera.validate (schema self) df with
            | Return _validated_df => Return (set_is_valid true results)
            | Raise (SchemaErrors failure_cases) =>
                Return (set_errors failure_cases results)
            | Raise e => Raise e
            end;
  business_warnings ← _check_business_rules df;
  let results :=
    set_warnings (warnings results ++ business_warnings) results in
  st ← _calculate_stats df;
  Return (set_stats st results).


End validation.

(** ** notebooks/scripts/data_quality.py *)

Module data_quality.
Import pandas objects.

Definition mismatch_cols : list string :=
  ["Base Fare (BDT)"; "Tax & Surcharge (BDT)"; "Total Fare (BDT)";
   "Fare Difference"].

(** [verify_fare_calculation(df, tolerance)]: [df] is a reference.  The two
    derived columns are written into the copy [df_temp].  The result is a
    reference to a new table; the tables in between are not kept. *)
Definition verify_fare_calculation (df : loc) (tolerance : Float64.t) : M loc :=
  df_temp ← copy df;
  base ← getitem_ref df_temp "Base Fare (BDT)";
  tax ← getitem_ref df_temp "Tax & Surcharge (BDT)";
  calculated ← lift (Series_add base tax);
  setitem_ref df_temp "Calculated Total" calculated;;
  total ← getitem_ref df_temp "Total Fare (BDT)";
  calculated ← getitem_ref df_temp "Calculated Total";
  d ← lift (Series_sub total calculated);
  difference ← lift (Series_abs d);
  setitem_ref df_temp "Fare Difference" difference;;
  fare_difference ← getitem_ref df_temp "Fare Difference";
  mask ← lift (Series_gt fare_difference tolerance);
  let mismatches := count_true mask in
  frame ← load df;
  let percentage :=
    Float64.mul (Float64.div (Float64.of_nat mismatches)
                             (Float64.of_nat (len frame)))
                (Float64.of_Z 100) in
  if (0 <? mismatches)%nat then
    fare_difference ← getitem_ref df_temp "Fare Difference";
    mask ← lift (Series_gt fare_difference tolerance);
    temp ← load df_temp;
    selected ← lift (getitem_list (getitem_mask temp mask) mismatch_cols);
    alloc (head selected 5)
  else alloc empty_frame.

Record QualitySummary : Type := {
  total_rows : nat;
  total_columns : nat;
  missing_values : nat;
  duplicates : nat;
  quality_score : Float64.t
}.

(** [generate_quality_summary(df)], as a function of the table [df] refers
    to.  The statistics of the fare column are only printed; they are
    evaluated here because the column may be absent or not numeric. *)
Definition generate_quality_summary (df : DataFrame) : result QualitySummary :=
  let missing_total := isnull_sum_sum df in
  let duplicate_total := count_true (duplicated df) in
  let complete_records := (len df - count_true (isnull_any_rows df))%nat in
  fare ← getitem df "Total Fare (BDT)";
  Series_min fare ≫= float_;;
  fare ← getitem df "Total Fare (BDT)";
  Series_max fare ≫= float_;;
  fare ← getitem df "Total Fare (BDT)";
  Series_mean fare;;
  fare ← getitem df "Total Fare (BDT)";
  Series_median fare;;
  fare ← getitem df "Total Fare (BDT)";
  Series_std fare;;
  Return
    {| total_rows := len df;
       total_columns := shape1 df;
       missing_values := missing_total;
       duplicates := duplicate_total;
       quality_score :=
         Float64.mul (Float64.of_Z 100)
           (Float64.sub (Float64.of_Z 1)
              (Float64.div
                 (Float64.of_nat (missing_total + duplicate_total))
                 (Float64.of_nat (len df * shape1 df)))) |}.


(** [check_missing_values(df)]: one row per column of [df] that has a
    missing value, with the number of its missing values and their share of
    the rows, the columns with most missing values first. *)
Definition check_missing_values (df : DataFrame) : result DataFrame :=
  let missing := isnull_sum df in
  let missing_pct :=
    map (fun p => Float64.mul
                    (Float64.div (Float64.of_nat (snd p)) (Float64.of_nat (len df)))
                    (Float64.of_Z 100)) missing in
  let frame :=
    {| columns := ["Column"; "Missing Count"; "Percentage"];
       dtypes := [object; int64; float64];
       values := zip_with (fun p pct => [Str (fst p); Int (Z.of_nat (snd p)); Float pct])
                          missing missing_pct |} in
  let missing_df :=
    {| columns := columns frame;
       dtypes := dtypes frame;
       values := sort_values_desc 1 (values frame) |} in
  counts ← getitem missing_df "Missing Count";
  mask ← Series_gt counts (Float64.of_Z 0);
  Return (getitem_mask missing_df mask).

Record DuplicateCounts : Type := {
  duplicate_rows : nat;
  duplicate_flights : nat
}.

(** [check_duplicates(df)].  The key columns are used without a test for
    their presence. *)
Definition check_duplicates (df : DataFrame) : result DuplicateCounts :=
  let duplicates := count_true (duplicated df) in
  mask ← duplicated_subset df
           ["Airline"; "Source"; "Destination"; "Departure Date & Time"];
  let flights := count_true mask in
  let percentage :=
    Float64.mul (Float64.div (Float64.of_nat duplicates) (Float64.of_nat (len df)))
                (Float64.of_Z 100) in
  Return {| duplicate_rows := duplicates; duplicate_flights := flights |}.

End data_quality.

(** ** notebooks/scripts/analysis.py *)

Module analysis.
Import pandas objects.

(** [create_route_feature(df)]: [df] is a reference; the new column is
    written into the copy, whose reference is returned. *)
Definition create_route_feature (df : loc) : M loc :=
  df_copy ← copy df;
  source ← getitem_ref df_copy "Source";
  left ← lift (Series_add_str source " → ");
  destination ← getitem_ref df_copy "Destination";
  route ← lift (Series_add_skipna left destination);
  setitem_ref df_copy "Route" route;;
  mret df_copy.

End analysis.


(** ** The vocabulary of the specification

    What the specification talks about, defined on tables independently of
    the code above: rows that break the fare sum, rows that repeat an earlier
    row, the completeness and uniqueness ratios, tables that carry the
    declared columns. *)

Module terms.
Import pandas pandera validation.

(** The cell of a row under a column label ([nan] when there is no such
    column). *)
Definition cell_at (df : DataFrame) (col : string) (row : list cell) : cell :=
  match get_loc (columns df) col with
  | Some i => nth i row nan
  | None => nan
  end.

(** [|Total - (Base + Tax)| > 1.0] *)
Definition fare_mismatch (base tax total : Float64.t) : bool :=
  Float64.gtb (Float64.abs (Float64.sub total (Float64.add base tax)))
              (Float64.of_Z 1).

(** A row satisfies the inequality when its three fares are numbers that
    do. *)
Definition row_mismatch (df : DataFrame) (row : list cell) : bool :=
  match to_float (cell_at df "Base Fare (BDT)" row),
        to_float (cell_at df "Tax & Surcharge (BDT)" row),
        to_float (cell_at df "Total Fare (BDT)" row) with
  | Return base, Return tax, Return total => fare_mismatch base tax total
  | _, _, _ => false
  end.

Definition mismatched_rows (df : DataFrame) : nat :=
  count_true (map (row_mismatch df) (values df)).

(** The key of a flight: its cells under the four key columns. *)
Definition key_of (df : DataFrame) (row : list cell) : list cell :=
  map (fun col => cell_at df col row) duplicate_cols.

(** Position [i] of [l] repeats an earlier position. *)
Definition repeats_earlier (l : list (list cell)) (i : nat) : bool :=
  match l !! i with
  | Some x => existsb (row_eqb x) (take i l)
  | None => false
  end.

Definition count_repeats (l : list (list cell)) : nat :=
  count_true (map (repeats_earlier l) (seq 0 (length l))).

(** Rows duplicated on the four-column key, and rows duplicated in full. *)
Definition duplicate_flights (df : DataFrame) : nat :=
  count_repeats (map (key_of df) (values df)).
Definition full_duplicates (df : DataFrame) : nat :=
  count_repeats (values df).

(** A column that is present holds no string. *)
Definition numeric_column (df : DataFrame) (col : string) : bool :=
  forallb (fun row => match cell_at df col row with
                      | Str _ => false
                      | _ => true
                      end) (values df).

Definition numeric_fares (df : DataFrame) : bool :=
  forallb (numeric_column df) fare_cols.

(** The table has every column the schema declares, under its declared
    dtype. *)
Definition has_declared_columns (schema : DataFrameSchema) (df : DataFrame)
  : bool :=
  forallb (fun nc => match getitem df (fst nc) with
                     | Return s => dtype_eqb (col_dtype (snd nc)) (dtype_ s)
                     | Raise _ => false
                     end)
          (schema_columns schema).

(** Section 4.4 of the specification, in its own words:
    completeness = rows with no missing field / total rows x 100,
    uniqueness = (1 - duplicate rows / total rows) x 100,
    overall = (completeness + uniqueness) / 2. *)
Definition rows_with_no_missing_field (df : DataFrame) : nat :=
  count_true (map (fun row => negb (existsb isna row)) (values df)).

Definition spec_completeness (df : DataFrame) : Q :=
  (inject_Z (Z.of_nat (rows_with_no_missing_field df))
   / inject_Z (Z.of_nat (len df)) * 100)%Q.

Definition spec_uniqueness (df : DataFrame) : Q :=
  ((1 - inject_Z (Z.of_nat (full_duplicates df))
        / inject_Z (Z.of_nat (len df))) * 100)%Q.

Definition spec_overall (df : DataFrame) : Q :=
  ((spec_completeness df + spec_uniqueness df) / 2)%Q.

(** What the code computes instead: the share of cells that are neither
    missing nor in a duplicated row, over all cells. *)
Definition cell_score (missing duplicates rows cols : nat) : Q :=
  (100 * (1 - inject_Z (Z.of_nat (missing + duplicates))
              / inject_Z (Z.of_nat (rows * cols))))%Q.

(** The warning of the fare-consistency rule naming [n] rows, and the one
    of the duplicate-flights rule naming [n] records. *)
Definition fare_warning (n : nat) : Warning :=
  {| rule := "Total Fare Calculation";
     message := str_of_nat n +:+ " rows have Total Fare != Base Fare + Tax";
     severity := "warning" |}.

Definition duplicate_warning (n : nat) : Warning :=
  {| rule := "Duplicate Flights";
     message := str_of_nat n +:+ " potential duplicate flight records found";
     severity := "info" |}.


Definition not_Str (c : cell) : Prop := forall s, c <> Str s.

(** The heap agrees with [h] wherever [h] is defined: every object of [h]
    is still there, with the same columns, dtypes and rows. *)
Definition preserves (h h' : gmap positive DataFrame) : Prop :=
  forall l df, h !! l = Some df -> h' !! l = Some df.

(** A computation that, started in a heap that agrees with [h0], ends in
    one that still does. *)
Definition keeps {A : Type} (h0 : gmap positive DataFrame) (m : objects.M A)
  : Prop :=
  forall h, preserves h0 h -> preserves h0 (snd (m h)).


(** The median the outlier rule compares with ([nan] when it cannot be
    taken). *)
Definition median_fare (df : DataFrame) : Float64.t :=
  match getitem df "Total Fare (BDT)" ≫= Series_median with
  | Return m => m
  | Raise _ => Float64.NaN
  end.

(** A fare is extreme when it is above ten times the median or below a
    tenth of it. *)
Definition extreme_fare (m fare : Float64.t) : bool :=
  Float64.gtb fare (Float64.mul m (Float64.of_Z 10))
  || Float64.ltb fare (Float64.mul m (Float64.Finite (1 # 10))).

Definition row_outlier (df : DataFrame) (row : list cell) : bool :=
  match to_float (cell_at df "Total Fare (BDT)" row) with
  | Return fare => extreme_fare (median_fare df) fare
  | Raise _ => false
  end.

Definition outlier_rows (df : DataFrame) : nat :=
  count_true (map (row_outlier df) (values df)).

Definition outlier_warning (n : nat) : Warning :=
  {| rule := "Fare Outliers";
     message := str_of_nat n +:+ " rows with extreme fares (10x or 0.1x median)";
     severity := "info" |}.

(** The number of rows whose cell in column [i] is missing. *)
Definition missing_in_column (df : DataFrame) (i : nat) : nat :=
  count_true (map (fun row => isna (nth i row nan)) (values df)).

(** [|Total - (Base + Tax)|] of a row, and whether it exceeds a tolerance. *)
Definition fare_difference (base tax total : Float64.t) : Float64.t :=
  Float64.abs (Float64.sub total (Float64.add base tax)).



(** A computation that can fail with [TypeError] only. *)
Definition only_TypeError {A : Type} (m : result A) : Prop :=
  forall e, m = Raise e -> e = TypeError.

(** A row after [df[col] = s]: the cell [x] is stored under [col], in place
    when the table has that column and at the end otherwise. *)
Definition set_cell (df : DataFrame) (col : string) (x : cell)
    (row : list cell) : list cell :=
  match get_loc (columns df) col with
  | Some i => <[i := x]> row
  | None => row ++ [x]
  end.





(** The dtype of a column ([object] when there is no such column). *)
Definition dtype_at (df : DataFrame) (col : string) : dtype :=
  match getitem df col with
  | Return s => dtype_ s
  | Raise _ => object
  end.

(** A column whose cells are strings or missing. *)
Definition text_column (df : DataFrame) (col : string) : bool :=
  forallb (fun row => match cell_at df col row with
                      | Str _ => true
                      | c => isna c
                      end) (values df).

(** The route of a row: source, arrow, destination; missing when either end
    is missing. *)
Definition route_cell (df : DataFrame) (row : list cell) : cell :=
  match cell_at df "Source" row, cell_at df "Destination" row with
  | Str a, Str b => Str ((a +:+ " → ") +:+ b)
  | _, _ => nan
  end.

(** The row [check_missing_values] reports for a column with [n] missing
    values. *)
Definition missing_row (df : DataFrame) (p : string * nat) : list cell :=
  [ Str (fst p);
    Int (Z.of_nat (snd p));
    Float (Float64.mul
             (Float64.div (Float64.of_nat (snd p)) (Float64.of_nat (len df)))
             (Float64.of_Z 100)) ].

End terms.

(** ** Sample tables *)

Module samples.
Import pandas.

Definition num (z : Z) : cell := Float (Float64.of_Z z).

(** The two rows of the fare-consistency example: the second one has a total
    of 200 for a base of 100 and a tax of 20. *)
Definition two_fares : DataFrame :=
  {| columns := ["Base Fare (BDT)"; "Tax & Surcharge (BDT)"; "Total Fare (BDT)"];
     dtypes := [float64; float64; float64];
     values := [ [num 100; num 20; num 120];
                 [num 100; num 20; num 200] ] |}.

(** Two flights with the same airline, route and departure time, sold in
    two classes. *)
Definition same_flight_twice : DataFrame :=
  {| columns := ["Airline"; "Source"; "Destination"; "Departure Date & Time";
                 "Class"];
     dtypes := [object; object; object; object; object];
     values := [ [Str "Biman"; Str "DAC"; Str "CXB"; Str "2025-01-01 10:00";
                  Str "Economy"];
                 [Str "Biman"; Str "DAC"; Str "CXB"; Str "2025-01-01 10:00";
                  Str "Business"] ] |}.

(** A fare column that was read as text. *)
Definition text_fare : DataFrame :=
  {| columns := ["Total Fare (BDT)"];
     dtypes := [object];
     values := [ [Str "abc"] ] |}.

(** A fare column alone, with one fare. *)
Definition one_fare : DataFrame :=
  {| columns := ["Total Fare (BDT)"];
     dtypes := [float64];
     values := [ [num 5000] ] |}.

(** A table without the fare column. *)
Definition no_fare_column : DataFrame :=
  {| columns := ["Airline"];
     dtypes := [object];
     values := [ [Str "Biman"]; [Str "Novoair"] ] |}.

(** The fare column alone, with no row. *)
Definition no_rows : DataFrame :=
  {| columns := ["Total Fare (BDT)"]; dtypes := [float64]; values := [] |}.

(** Ten rows, one of them with a missing fare, no duplicated row: as a
    single column, and with a second column that is complete. *)
Definition ten_rows_one_column : DataFrame :=
  {| columns := ["Total Fare (BDT)"];
     dtypes := [float64];
     values := [ [num 1]; [num 2]; [num 3]; [num 4]; [num 5];
                 [num 6]; [num 7]; [num 8]; [num 9]; [nan] ] |}.

Definition ten_rows_two_columns : DataFrame :=
  {| columns := ["Days Before Departure"; "Total Fare (BDT)"];
     dtypes := [int64; float64];
     values := [ [Int 1; num 1]; [Int 2; num 2]; [Int 3; num 3]; [Int 4; num 4];
                 [Int 5; num 5]; [Int 6; num 6]; [Int 7; num 7]; [Int 8; num 8];
                 [Int 9; num 9]; [Int 10; nan] ] |}.

(** Three rows whose only field is missing. *)
Definition all_missing : DataFrame :=
  {| columns := ["Total Fare (BDT)"];
     dtypes := [float64];
     values := [ [nan]; [nan]; [nan] ] |}.

(** The header of the data set, with the declared dtypes and no row. *)
Definition header_only : DataFrame :=
  {| columns := ["Airline"; "Source"; "Source Name"; "Destination";
                 "Destination Name"; "Departure Date & Time";
                 "Arrival Date & Time"; "Duration (hrs)"; "Stopovers";
                 "Aircraft Type"; "Class"; "Booking Source"; "Base Fare (BDT)";
                 "Tax & Surcharge (BDT)"; "Total Fare (BDT)"; "Seasonality";
                 "Days Before Departure"];
     dtypes := [object; object; object; object; object; object; object;
                float64; object; object; object; object; float64; float64;
                float64; object; int64];
     values := [] |}.



(** Three rows with one missing fare and two missing aircraft types. *)
Definition holes : DataFrame :=
  {| columns := ["Airline"; "Total Fare (BDT)"; "Aircraft Type"];
     dtypes := [object; float64; object];
     values := [ [Str "Biman"; num 100; nan];
                 [Str "Novoair"; nan; nan];
                 [Str "Biman"; num 300; Str "ATR 72"] ] |}.

(** A heap with one table, and the reference to it. *)
Definition the_table : objects.loc := 1%positive.
Definition heap_of (df : DataFrame) : objects.heap := {[ the_table := df ]}.

End samples.

(** * Properties *)

(** ** The result monad *)

Lemma bind_Return {A B : Type} (m : result A) (f : A -> result B) (b : B) :
  m ≫= f = Return b -> exists a, m = Return a /\ f a = Return b.
Proof. destruct m as [a|e]; [eauto | discriminate]. Qed.

(** Splits a hypothesis [x ← m; k = Return b] into [m = Return a] and
    [k a = Return b], as long as there is a bind at its head. *)
Ltac bind_inv H :=
  repeat (let a := fresh "a" in
          let Ha := fresh "H" a in
          apply bind_Return in H as (a & Ha & H)).

Section MapM.
Context {A B : Type} (f : A -> result B).

Lemma mapM_Return (l : list A) (k : list B) :
  mapM f l = Return k <-> Forall2 (fun a b => f a = Return b) l k.
Proof.
  revert k; induction l as [|a l IH]; intros k; simpl.
  - split; [intros [= <-]; constructor | inversion 1; reflexivity].
  - split.
    + intros H. apply bind_Return in H as (b & Hb & H).
      apply bind_Return in H as (k' & Hk & [= <-]).
      constructor; [assumption | now apply IH].
    + inversion 1 as [|? b ? k' Hb Hk]; subst.
      apply IH in Hk. unfold mbind in *. simpl. rewrite Hb. simpl.
      rewrite Hk. reflexivity.
Qed.

Lemma mapM_total (l : list A) :
  Forall (fun a => exists b, f a = Return b) l -> exists k, mapM f l = Return k.
Proof.
  induction 1 as [|a l [b Hb] _ [k Hk]]; simpl; [eauto|].
  exists (b :: k). rewrite Hb. simpl. rewrite Hk. reflexivity.
Qed.

End MapM.

(** ** Validation results *)

Section Validate.
Import pandas pandera validation terms.

Lemma pandera_validate_cases (schema : DataFrameSchema) (df : DataFrame) :
  (failure_cases_of schema df = [] /\ pandera.validate schema df = Return df) \/
  (failure_cases_of schema df <> [] /\
   pandera.validate schema df = Raise (SchemaErrors (failure_cases_of schema df))).
Proof.
  unfold pandera.validate. destruct (failure_cases_of schema df); [left | right]; easy.
Qed.

(** What [validate] returns, field by field. *)
Lemma validate_Return (self : FlightDataValidator) (df : DataFrame) (r : Results) :
  validate self df = Return r ->
  exists ws st,
    _check_business_rules df = Return ws /\
    _calculate_stats df = Return st /\
    r = {| is_valid := returns (pandera.validate (schema self) df);
           errors := failure_cases_of (schema self) df;
           warnings := ws;
           stats := Some st |}.
Proof.
  unfold validate. intros H.
  destruct (pandera_validate_cases (schema self) df) as [[Hfc Hv]|[Hfc Hv]];
    rewrite Hv in *; simpl in H;
    apply bind_Return in H as (ws & Hws & H);
    apply bind_Return in H as (st & Hst & [= <-]);
    exists ws, st; (split; [assumption|]); (split; [assumption|]);
    unfold set_stats, set_warnings, set_errors, set_is_valid; simpl;
    rewrite ?Hfc; reflexivity.
Qed.

Lemma validate_returns (self : FlightDataValidator) (df : DataFrame) ws st :
  _check_business_rules df = Return ws ->
  _calculate_stats df = Return st ->
  exists r, validate self df = Return r.
Proof.
  intros Hws Hst. unfold validate.
  destruct (pandera_validate_cases (schema self) df) as [[_ Hv]|[_ Hv]];
    rewrite Hv; simpl; rewrite Hws; simpl; rewrite Hst; simpl; eauto.
Qed.

End Validate.

(** ** numpy scalars *)

Module Float64Facts.
Import Float64.
Local Open Scope Q_scope.

#[global] Instance equiv_Equivalence : Equivalence equiv.
Proof.
  split.
  - intros [q| |s]; simpl; auto with qarith.
  - intros [q| |s] [q'| |s']; simpl; auto with qarith.
  - intros [q| |s] [q'| |s'] [q''| |s'']; simpl; try tauto; try congruence.
    apply Qeq_trans.
Qed.

(** The distance of two values does not depend on their order. *)
Lemma abs_sub_comm (x y : t) : abs (sub x y) = abs (sub y x).
Proof.
  destruct x as [a| |s], y as [b| |s']; simpl; try reflexivity.
  - f_equal. apply Qabs_Qminus.
  - destruct s, s'; reflexivity.
Qed.

Lemma of_Z_add (x y : Z) : of_Z (x + y) = add (of_Z x) (of_Z y).
Proof. unfold of_Z, add. now rewrite inject_Z_plus. Qed.

Lemma of_Z_sub (x y : Z) : of_Z (x - y) = sub (of_Z x) (of_Z y).
Proof.
  unfold of_Z, sub, add, neg, Z.sub. now rewrite inject_Z_plus, inject_Z_opp.
Qed.

Lemma of_Z_abs (z : Z) : of_Z (Z.abs z) = abs (of_Z z).
Proof. reflexivity. Qed.

End Float64Facts.

(** ** Tables and columns *)

Section Columns.
Import pandas terms.

Lemma contains_get_loc (cols : list string) (col : string) :
  contains cols col = true <-> is_Some (get_loc cols col).
Proof.
  unfold contains. induction cols as [|c cols IH]; simpl.
  - split; [discriminate | intros [? [=]]].
  - destruct (String.eqb col c); simpl; [split; eauto|].
    rewrite IH. destruct (get_loc cols col); simpl; split; intros [? [=]]; eauto.
Qed.

Lemma not_contains_get_loc (cols : list string) (col : string) :
  contains cols col = false <-> get_loc cols col = None.
Proof.
  rewrite <- not_true_iff_false, contains_get_loc, <- eq_None_not_Some. tauto.
Qed.

Lemma column_at_cell_at (df : DataFrame) (col : string) (i : nat) :
  get_loc (columns df) col = Some i ->
  column_at i (values df) = map (cell_at df col) (values df).
Proof.
  intros H. unfold column_at, cell_at. now rewrite H.
Qed.

(** [df[col]] is the column of the cells under [col]; it raises [KeyError]
    exactly when there is no such column. *)
Lemma getitem_Return (df : DataFrame) (col : string) (s : Series) :
  getitem df col = Return s ->
  contains (columns df) col = true /\ data s = map (cell_at df col) (values df).
Proof.
  unfold getitem. destruct (get_loc (columns df) col) as [i|] eqn:Hi; [|discriminate].
  intros [= <-]. split; [apply contains_get_loc; eauto|].
  now apply column_at_cell_at.
Qed.

Lemma getitem_contains (df : DataFrame) (col : string) :
  contains (columns df) col = true ->
  exists s, getitem df col = Return s /\ data s = map (cell_at df col) (values df).
Proof.
  intros [i Hi]%contains_get_loc. unfold getitem. rewrite Hi.
  eexists; split; [reflexivity|]. now apply column_at_cell_at.
Qed.

Lemma getitem_missing (df : DataFrame) (col : string) :
  contains (columns df) col = false -> getitem df col = Raise (KeyError col).
Proof. intros H%not_contains_get_loc. unfold getitem. now rewrite H. Qed.

Lemma cell_at_missing (df : DataFrame) (col : string) (row : list cell) :
  contains (columns df) col = false -> cell_at df col row = nan.
Proof. intros H%not_contains_get_loc. unfold cell_at. now rewrite H. Qed.

Lemma count_true_le (mask : list bool) : count_true mask <= length mask.
Proof. unfold count_true. apply filter_length_le. Qed.


End Columns.

(** ** The fare-consistency computation, cell by cell *)

Section FareCells.
Import pandas terms Float64Facts.

#[local] Opaque Float64.add Float64.sub Float64.abs Float64.gtb Float64.of_Z.

(** One row of [abs((Base + Tax) - Total) > 1.0]. *)
Lemma fare_cells (b x t c d a : cell) (m : bool) :
  add_cell b x = Return c ->
  sub_cell c t = Return d ->
  abs_cell d = Return a ->
  gt_cell (Float64.of_Z 1) a = Return m ->
  exists fb fx ft,
    to_float b = Return fb /\ to_float x = Return fx /\ to_float t = Return ft /\
    m = fare_mismatch fb fx ft.
Proof.
  unfold fare_mismatch. intros Hc Hd Ha Hm.
  destruct b as [sb|fb|zb], x as [sx|fx|zx]; simpl in Hc; try discriminate;
    injection Hc as <-;
    destruct t as [st|ft|zt]; simpl in Hd; try discriminate;
    injection Hd as <-; simpl in Ha; injection Ha as <-;
    simpl in Hm; injection Hm as <-;
    do 3 eexists; (split; [reflexivity|]); (split; [reflexivity|]);
    (split; [reflexivity|]);
    rewrite ?of_Z_abs, ?of_Z_sub, ?of_Z_add;
    now rewrite abs_sub_comm.
Qed.

Lemma fare_cells_total (b x t : cell) :
  (forall s, b <> Str s) -> (forall s, x <> Str s) -> (forall s, t <> Str s) ->
  exists c d a m,
    add_cell b x = Return c /\ sub_cell c t = Return d /\
    abs_cell d = Return a /\ gt_cell (Float64.of_Z 1) a = Return m.
Proof.
  intros Hb Hx Ht.
  destruct b as [sb|fb|zb]; [now destruct (Hb sb)| |];
    (destruct x as [sx|fx|zx]; [now destruct (Hx sx)| |]);
    (destruct t as [st|ft|zt]; [now destruct (Ht st)| |]);
    simpl; eauto 10.
Qed.

#[local] Transparent Float64.add Float64.sub Float64.abs Float64.gtb Float64.of_Z.

End FareCells.

(** ** The fare-consistency computation, column by column *)

Section FareColumns.
Import pandas validation terms.

Variables fb fx ft : list cell -> cell.

Lemma fare_pipeline (rows : list (list cell)) (cs ds ab : list cell)
    (mask : list bool) :
  zip_with_result add_cell (map fb rows) (map fx rows) = Return cs ->
  zip_with_result sub_cell cs (map ft rows) = Return ds ->
  mapM abs_cell ds = Return ab ->
  mapM (gt_cell (Float64.of_Z 1)) ab = Return mask ->
  mask = map (fun r => match to_float (fb r), to_float (fx r), to_float (ft r) with
                       | Return b, Return x, Return t => fare_mismatch b x t
                       | _, _, _ => false
                       end) rows.
Proof.
  unfold zip_with_result.
  revert cs ds ab mask; induction rows as [|r rows IH]; intros cs ds ab mask.
  - intros [= <-] [= <-] [= <-] [= <-]. reflexivity.
  - cbn [map zip zip_with mapM fst snd]. intros Hc Hd Ha Hm.
    apply bind_Return in Hc as (c & Hc & Hcs).
    apply bind_Return in Hcs as (cs' & Hcs & [= <-]).
    cbn [map zip zip_with mapM fst snd] in Hd.
    apply bind_Return in Hd as (d & Hd & Hds).
    apply bind_Return in Hds as (ds' & Hds & [= <-]).
    cbn [mapM] in Ha.
    apply bind_Return in Ha as (a & Ha & Hab).
    apply bind_Return in Hab as (ab' & Hab & [= <-]).
    cbn [mapM] in Hm.
    apply bind_Return in Hm as (m & Hm & Hmask).
    apply bind_Return in Hmask as (mask' & Hmask & [= <-]).
    f_equal; [|eapply IH; eassumption].
    destruct (fare_cells _ _ _ _ _ _ _ Hc Hd Ha Hm)
      as (b' & x' & t' & -> & -> & -> & ->).
    reflexivity.
Qed.

Lemma fare_pipeline_total (rows : list (list cell)) :
  Forall (fun r => (forall s, fb r <> Str s) /\ (forall s, fx r <> Str s) /\
                   (forall s, ft r <> Str s)) rows ->
  exists cs ds ab mask,
    zip_with_result add_cell (map fb rows) (map fx rows) = Return cs /\
    zip_with_result sub_cell cs (map ft rows) = Return ds /\
    mapM abs_cell ds = Return ab /\
    mapM (gt_cell (Float64.of_Z 1)) ab = Return mask.
Proof.
  unfold zip_with_result.
  induction 1 as [|r rows (Hb & Hx & Ht) _ (cs & ds & ab & mask & Hc & Hd & Ha & Hm)].
  - exists [], [], [], []. repeat split.
  - destruct (fare_cells_total _ _ _ Hb Hx Ht) as (c & d & a & m & Hc' & Hd' & Ha' & Hm').
    exists (c :: cs), (d :: ds), (a :: ab), (m :: mask).
    cbn [map zip zip_with mapM fst snd].
    rewrite Hc'; cbn [mbind result_bind]; rewrite Hc; cbn [mbind result_bind].
    split; [reflexivity|].
    cbn [map zip zip_with mapM fst snd].
    rewrite Hd'; cbn [mbind result_bind]; rewrite Hd; cbn [mbind result_bind].
    split; [reflexivity|].
    rewrite Ha'; cbn [mbind result_bind]; rewrite Ha; cbn [mbind result_bind].
    split; [reflexivity|].
    rewrite Hm'; cbn [mbind result_bind]; rewrite Hm. reflexivity.
Qed.

End FareColumns.

(** ** The three business rules *)

Section Rules.
Import pandas validation terms Float64Facts.

Lemma row_mismatch_absent (df : DataFrame) (row : list cell) :
  forallb (contains (columns df)) fare_cols = false ->
  row_mismatch df row = false.
Proof.
  unfold fare_cols, row_mismatch, fare_mismatch. cbn [forallb].
  destruct (contains (columns df) "Base Fare (BDT)") eqn:Hb;
    [|intros _; rewrite (cell_at_missing _ _ _ Hb); cbn [nan to_float];
      repeat (destruct (to_float _) as [[]|]; try reflexivity)].
  destruct (contains (columns df) "Tax & Surcharge (BDT)") eqn:Hx;
    [|intros _; rewrite (cell_at_missing df "Tax & Surcharge (BDT)" _ Hx);
      cbn [nan to_float];
      repeat (destruct (to_float _) as [[]|]; try reflexivity)].
  destruct (contains (columns df) "Total Fare (BDT)") eqn:Ht; [discriminate|].
  intros _; rewrite (cell_at_missing df "Total Fare (BDT)" _ Ht).
  cbn [nan to_float].
  repeat (destruct (to_float _) as [[]|]; try reflexivity).
Qed.

Lemma mismatched_rows_absent (df : DataFrame) :
  forallb (contains (columns df)) fare_cols = false -> mismatched_rows df = 0.
Proof.
  intros H. unfold mismatched_rows, count_true.
  induction (values df) as [|r rows IH]; [reflexivity|].
  cbn [map filter]. now rewrite (row_mismatch_absent _ _ H).
Qed.

(** The fare rule adds its warning exactly when some row breaks the sum, and
    names the number of such rows. *)
Lemma fare_rule_Return (df : DataFrame) (ws ws' : list Warning) :
  fare_rule df ws = Return ws' ->
  ws' = ws ++ (if (0 <? mismatched_rows df)%nat
               then [fare_warning (mismatched_rows df)] else []).
Proof.
  unfold fare_rule. destruct (forallb _ fare_cols) eqn:Hcols.
  - cbn [forallb fare_cols] in Hcols.
    apply andb_true_iff in Hcols as [Hb Hcols].
    apply andb_true_iff in Hcols as [Hx Hcols].
    apply andb_true_iff in Hcols as [Ht _].
    destruct (getitem_contains _ _ Hb) as (sb & -> & Hsb).
    destruct (getitem_contains _ _ Hx) as (sx & -> & Hsx).
    destruct (getitem_contains _ _ Ht) as (st & -> & Hst).
    cbn [mbind result_bind]. intros H.
    apply bind_Return in H as (c & Hc & H).
    apply bind_Return in H as (d & Hd & H).
    apply bind_Return in H as (a & Ha & H).
    apply bind_Return in H as (mask & Hm & H).
    unfold Series_add in Hc. apply bind_Return in Hc as (cs & Hc & [= <-]).
    unfold Series_sub in Hd. apply bind_Return in Hd as (ds & Hd & [= <-]).
    unfold Series_abs in Ha. apply bind_Return in Ha as (ab & Ha & [= <-]).
    unfold Series_gt in Hm. cbn [data] in *.
    rewrite Hsb, Hsx in Hc. rewrite Hst in Hd.
    pose proof (fare_pipeline _ _ _ _ _ _ _ _ Hc Hd Ha Hm) as ->.
    fold (row_mismatch df) in H. fold (mismatched_rows df) in H.
    destruct (0 <? mismatched_rows df)%nat; injection H as <-;
      [reflexivity | now rewrite app_nil_r].
  - intros [= <-]. rewrite (mismatched_rows_absent _ Hcols). cbn.
    now rewrite app_nil_r.
Qed.

End Rules.

(** ** Duplicates *)

Section Duplicates.
Import pandas validation terms.

(** [duplicated] marks exactly the positions that repeat an earlier one. *)
Lemma duplicated_keys_seen (seen keys : list (list cell)) :
  duplicated_keys seen keys =
  map (fun i => match keys !! i with
                | Some x => existsb (row_eqb x) (take i keys)
                            || existsb (row_eqb x) seen
                | None => false
                end) (seq 0 (length keys)).
Proof.
  revert seen; induction keys as [|k keys IH]; intros seen; [reflexivity|].
  cbn [duplicated_keys length seq map]. f_equal.
  rewrite IH, <- seq_shift, map_map. apply map_ext. intros i.
  cbn [lookup list_lookup take firstn existsb].
  destruct (keys !! i) as [x|]; [|reflexivity].
  destruct (row_eqb x k), (existsb (row_eqb x) (take i keys)),
    (existsb (row_eqb x) seen); reflexivity.
Qed.

Lemma duplicated_keys_repeats (keys : list (list cell)) :
  count_true (duplicated_keys [] keys) = count_repeats keys.
Proof.
  unfold count_repeats. rewrite duplicated_keys_seen. f_equal.
  apply map_ext. intros i. unfold repeats_earlier.
  destruct (keys !! i); [apply orb_false_r | reflexivity].
Qed.

Lemma duplicated_full (df : DataFrame) :
  count_true (duplicated df) = full_duplicates df.
Proof. apply duplicated_keys_repeats. Qed.

Lemma get_locs_contains (cols subset : list string) :
  forallb (contains cols) subset = true ->
  exists ixs, get_locs cols subset = Return ixs.
Proof.
  induction subset as [|c subset IH]; cbn [forallb get_locs]; [eauto|].
  intros [Hc Hs]%andb_true_iff.
  apply contains_get_loc in Hc as [i ->]. destruct (IH Hs) as [ixs ->].
  cbn; eauto.
Qed.

Lemma get_locs_cell_at (df : DataFrame) (subset : list string) (ixs : list nat)
    (row : list cell) :
  get_locs (columns df) subset = Return ixs ->
  map (fun i => nth i row nan) ixs = map (fun col => cell_at df col row) subset.
Proof.
  revert ixs; induction subset as [|c subset IH]; intros ixs; cbn [get_locs].
  - now intros [= <-].
  - destruct (get_loc (columns df) c) as [i|] eqn:Hi; [|discriminate].
    intros H. apply bind_Return in H as (ixs' & Hixs & [= <-]).
    cbn [map]. f_equal; [|now apply IH].
    unfold cell_at. now rewrite Hi.
Qed.
End Duplicates.

Section MoreRules.
Import pandas validation terms.

Lemma duplicated_subset_keys (df : DataFrame) :
  forallb (contains (columns df)) duplicate_cols = true ->
  exists mask, duplicated_subset df duplicate_cols = Return mask /\
               count_true mask = duplicate_flights df.
Proof.
  intros H. destruct (get_locs_contains _ _ H) as [ixs Hixs].
  unfold duplicated_subset. rewrite Hixs. cbn [mbind result_bind].
  eexists; split; [reflexivity|].
  rewrite duplicated_keys_repeats. unfold duplicate_flights. f_equal.
  apply map_ext. intros row. unfold key_of.
  now apply get_locs_cell_at.
Qed.

(** The duplicate rule never raises; it adds its warning exactly when the
    key columns are there and some row repeats the key of an earlier row. *)
Lemma duplicate_rule_Return (df : DataFrame) (ws : list Warning) :
  duplicate_rule df ws =
  Return (ws ++ (if forallb (contains (columns df)) duplicate_cols
                    && (0 <? duplicate_flights df)%nat
                 then [duplicate_warning (duplicate_flights df)] else [])).
Proof.
  unfold duplicate_rule.
  destruct (forallb _ duplicate_cols) eqn:Hcols; cbn [andb];
    [|now rewrite app_nil_r].
  destruct (duplicated_subset_keys _ Hcols) as (mask & -> & Hmask).
  cbn [mbind result_bind]. rewrite Hmask.
  destruct (0 <? duplicate_flights df)%nat; [reflexivity | now rewrite app_nil_r].
Qed.

Lemma numeric_column_Forall (df : DataFrame) (col : string) :
  numeric_column df col = true ->
  Forall (fun c => exists x, to_float c = Return x)
         (map (cell_at df col) (values df)).
Proof.
  unfold numeric_column. rewrite forallb_forall, List.Forall_map, List.Forall_forall.
  intros H row Hrow. specialize (H row Hrow).
  destruct (cell_at df col row); [discriminate | eauto | eauto].
Qed.

Lemma numeric_column_not_Str (df : DataFrame) (col : string) :
  numeric_column df col = true ->
  Forall (fun row => forall s, cell_at df col row <> Str s) (values df).
Proof.
  unfold numeric_column. rewrite forallb_forall, List.Forall_forall.
  intros H row Hrow. specialize (H row Hrow).
  intros s Hs. now rewrite Hs in H.
Qed.

Lemma compare_total (f : Float64.t -> Float64.t -> bool) (x : Float64.t)
    (cs : list cell) :
  Forall (fun c => exists y, to_float c = Return y) cs ->
  exists mask, mapM (fun c => y ← to_float c; Return (f y x)) cs = Return mask.
Proof.
  intros H. apply mapM_total. eapply Forall_impl; [|exact H].
  intros c [y ->]. cbn. eauto.
Qed.

(** The outlier rule adds at most one warning, of severity "info", and none
    when the fare column is absent. *)
Lemma outlier_rule_Return (df : DataFrame) (ws ws' : list Warning) :
  outlier_rule df ws = Return ws' ->
  exists part,
    ws' = ws ++ part /\
    (contains (columns df) "Total Fare (BDT)" = false -> part = []) /\
    Forall (fun w => rule w = "Fare Outliers" /\ severity w = "info") part.
Proof.
  unfold outlier_rule.
  destruct (contains (columns df) "Total Fare (BDT)") eqn:Ht.
  - intros H.
    repeat (let a := fresh "a" in let Ha := fresh "Ha" in
            apply bind_Return in H as (a & Ha & H)).
    match type of H with
    | (if ?c then _ else _) = _ => destruct c
    end; injection H as <-.
    + eexists; split; [reflexivity|]. split; [discriminate|].
      repeat constructor.
    + exists []. rewrite app_nil_r. repeat split. constructor.
  - intros [= <-]. exists []. rewrite app_nil_r. repeat split. constructor.
Qed.

Lemma outlier_rule_total (df : DataFrame) (ws : list Warning) :
  numeric_column df "Total Fare (BDT)" = true ->
  exists ws', outlier_rule df ws = Return ws'.
Proof.
  intros Hnum. unfold outlier_rule.
  destruct (contains (columns df) "Total Fare (BDT)") eqn:Ht; [|eauto].
  destruct (getitem_contains _ _ Ht) as (s & -> & Hs).
  cbn [mbind result_bind].
  apply numeric_column_Forall in Hnum. rewrite <- Hs in Hnum.
  destruct (mapM_total to_float _ Hnum) as [xs Hxs].
  unfold Series_median, _ensure_numeric. rewrite Hxs. cbn [mbind result_bind].
  set (median_fare := if (_ =? 0)%nat then _ else _).
  assert (exists m, median_fare = Return m) as [m ->].
  { subst median_fare. destruct (_ =? 0)%nat; [eauto|].
    destruct (Nat.even _); eauto. }
  cbn [mbind result_bind].
  destruct (compare_total Float64.gtb (Float64.mul m (Float64.of_Z 10)) _ Hnum)
    as [hi Hhi].
  destruct (compare_total Float64.ltb (Float64.mul m (Float64.Finite (1 # 10))) _ Hnum)
    as [lo Hlo].
  unfold Series_gt, Series_lt, gt_cell, lt_cell.
  rewrite Hhi. cbn [mbind result_bind]. rewrite Hlo. cbn [mbind result_bind].
  destruct (0 <? _)%nat; eauto.
Qed.

Lemma fare_rule_total (df : DataFrame) (ws : list Warning) :
  numeric_fares df = true -> exists ws', fare_rule df ws = Return ws'.
Proof.
  unfold numeric_fares. cbn [forallb fare_cols].
  intros [Nb [Nx [Nt _]%andb_true_iff]%andb_true_iff]%andb_true_iff.
  unfold fare_rule. destruct (forallb _ fare_cols) eqn:Hcols; [|eauto].
  cbn [forallb fare_cols] in Hcols.
  apply andb_true_iff in Hcols as [Hb [Hx [Ht _]%andb_true_iff]%andb_true_iff].
  destruct (getitem_contains _ _ Hb) as (sb & -> & Hsb).
  destruct (getitem_contains _ _ Hx) as (sx & -> & Hsx).
  destruct (getitem_contains _ _ Ht) as (st & -> & Hst).
  cbn [mbind result_bind].
  apply numeric_column_not_Str in Nb, Nx, Nt.
  destruct (fare_pipeline_total
              (cell_at df "Base Fare (BDT)") (cell_at df "Tax & Surcharge (BDT)")
              (cell_at df "Total Fare (BDT)") (values df))
    as (cs & ds & ab & mask & Hc & Hd & Ha & Hm).
  { rewrite List.Forall_forall in *. intros row Hrow. auto. }
  unfold Series_add, Series_sub, Series_abs, Series_gt. cbn [data].
  rewrite Hsb, Hsx, Hc. cbn [mbind result_bind data].
  rewrite Hst, Hd. cbn [mbind result_bind data].
  rewrite Ha. cbn [mbind result_bind data].
  rewrite Hm. cbn [mbind result_bind].
  destruct (0 <? _)%nat; eauto.
Qed.

End MoreRules.

Section BusinessRules.
Import pandas validation terms.

(** A rule appends to the list it is given what it yields on the empty
    list: the rules do not look at each other's warnings. *)
Lemma fare_rule_app (df : DataFrame) (ws : list Warning) :
  fare_rule df ws = part ← fare_rule df []; Return (ws ++ part).
Proof.
  unfold fare_rule. destruct (forallb _ fare_cols); cbn [mbind result_bind];
    [|now rewrite app_nil_r].
  repeat match goal with
         | |- ?m ≫= _ = (?m ≫= _) ≫= _ =>
             destruct m; cbn [mbind result_bind]; [|reflexivity]
         end.
  destruct (0 <? _)%nat; cbn [mbind result_bind app];
    [reflexivity | now rewrite app_nil_r].
Qed.

Lemma outlier_rule_app (df : DataFrame) (ws : list Warning) :
  outlier_rule df ws = part ← outlier_rule df []; Return (ws ++ part).
Proof.
  unfold outlier_rule. destruct (contains _ _); cbn [mbind result_bind];
    [|now rewrite app_nil_r].
  repeat match goal with
         | |- ?m ≫= _ = (?m ≫= _) ≫= _ =>
             destruct m; cbn [mbind result_bind]; [|reflexivity]
         end.
  destruct (0 <? _)%nat; cbn [mbind result_bind app];
    [reflexivity | now rewrite app_nil_r].
Qed.

Lemma duplicate_rule_app (df : DataFrame) (ws : list Warning) :
  duplicate_rule df ws = part ← duplicate_rule df []; Return (ws ++ part).
Proof. now rewrite !duplicate_rule_Return. Qed.

(** The warnings of [_check_business_rules] are those of the three rules,
    each taken on its own, in the order of the rules. *)
Lemma check_business_rules_parts (df : DataFrame) (ws : list Warning) :
  _check_business_rules df = Return ws <->
  exists w1 w2 w3,
    fare_rule df [] = Return w1 /\ duplicate_rule df [] = Return w2 /\
    outlier_rule df [] = Return w3 /\ ws = w1 ++ w2 ++ w3.
Proof.
  unfold _check_business_rules. split.
  - intros H.
    apply bind_Return in H as (w1 & H1 & H).
    apply bind_Return in H as (w12 & H2 & H).
    apply bind_Return in H as (w123 & H3 & [= <-]).
    rewrite duplicate_rule_app in H2.
    apply bind_Return in H2 as (w2 & H2 & [= <-]).
    rewrite outlier_rule_app in H3.
    apply bind_Return in H3 as (w3 & H3 & [= <-]).
    exists w1, w2, w3. now rewrite <- app_assoc.
  - intros (w1 & w2 & w3 & H1 & H2 & H3 & ->).
    rewrite H1. cbn [mbind result_bind].
    rewrite duplicate_rule_app, H2. cbn [mbind result_bind].
    rewrite outlier_rule_app, H3. cbn [mbind result_bind mret result_ret].
    now rewrite <- app_assoc.
Qed.

Lemma check_business_rules_total (df : DataFrame) :
  numeric_fares df = true -> exists ws, _check_business_rules df = Return ws.
Proof.
  intros Hnum.
  destruct (fare_rule_total df [] Hnum) as [w1 H1].
  destruct (outlier_rule_total df []) as [w3 H3].
  { unfold numeric_fares in Hnum. cbn [forallb fare_cols] in Hnum.
    now apply andb_true_iff in Hnum as [_ [_ [? _]%andb_true_iff]%andb_true_iff]. }
  eexists. apply check_business_rules_parts.
  eexists _, _, _. split; [eassumption|].
  split; [apply duplicate_rule_Return|]. split; [eassumption | reflexivity].
Qed.



End BusinessRules.

(** ** Aggregates and statistics *)

Section Statistics.
Import pandas validation terms.

Lemma numeric_data (df : DataFrame) (col : string) (s : Series) :
  numeric_column df col = true ->
  data s = map (cell_at df col) (values df) ->
  Forall (fun c => exists x, to_float c = Return x) (data s).
Proof. intros H ->. now apply numeric_column_Forall. Qed.

Lemma to_float_not_Str (c : cell) :
  (exists x, to_float c = Return x) <-> not_Str c.
Proof.
  unfold not_Str. destruct c; cbn; split; eauto; try discriminate.
  - intros [? [=]].
  - intros H. now destruct (H s).
Qed.

Lemma ensure_numeric_total (s : Series) :
  Forall (fun c => exists x, to_float c = Return x) (data s) ->
  exists xs, _ensure_numeric s = Return xs.
Proof. apply mapM_total. Qed.

Lemma Series_mean_total (s : Series) :
  Forall (fun c => exists x, to_float c = Return x) (data s) ->
  exists m, Series_mean s = Return m.
Proof.
  intros [xs Hxs]%ensure_numeric_total. unfold Series_mean. rewrite Hxs.
  cbn; eauto.
Qed.

Lemma Series_median_total (s : Series) :
  Forall (fun c => exists x, to_float c = Return x) (data s) ->
  exists m, Series_median s = Return m.
Proof.
  intros [xs Hxs]%ensure_numeric_total. unfold Series_median. rewrite Hxs.
  cbn [mbind result_bind]. destruct (_ =? 0)%nat; [eauto|].
  destruct (Nat.even _); eauto.
Qed.

Lemma Series_std_total (s : Series) :
  Forall (fun c => exists x, to_float c = Return x) (data s) ->
  exists m, Series_std s = Return m.
Proof.
  intros [xs Hxs]%ensure_numeric_total. unfold Series_std. rewrite Hxs.
  cbn [mbind result_bind]. destruct (_ =? 0)%nat; eauto.
Qed.

Lemma reduce_total (f : cell -> cell -> result cell) (acc : cell) (cs : list cell) :
  (forall a b, not_Str a -> not_Str b -> exists c, f a b = Return c /\ not_Str c) ->
  not_Str acc -> Forall not_Str cs ->
  exists c, reduce f acc cs = Return c /\ not_Str c.
Proof.
  intros Hf Hacc Hcs. revert acc Hacc.
  induction Hcs as [|c cs Hc _ IH]; intros acc Hacc; cbn [reduce]; [eauto|].
  destruct (Hf acc c Hacc Hc) as (acc' & -> & Hacc'). cbn [mbind result_bind].
  now apply IH.
Qed.

Lemma smaller_total (a b : cell) :
  not_Str a -> not_Str b -> exists c, smaller a b = Return c /\ not_Str c.
Proof.
  intros Ha Hb. destruct a as [s| |]; [now destruct (Ha s)| |];
    (destruct b as [s| |]; [now destruct (Hb s)| |]); cbn;
    match goal with |- context [if ?c then _ else _] => destruct c end; eauto.
Qed.

Lemma larger_total (a b : cell) :
  not_Str a -> not_Str b -> exists c, larger a b = Return c /\ not_Str c.
Proof.
  intros Ha Hb. destruct a as [s| |]; [now destruct (Ha s)| |];
    (destruct b as [s| |]; [now destruct (Hb s)| |]); cbn;
    match goal with |- context [if ?c then _ else _] => destruct c end; eauto.
Qed.

Lemma Series_reduce_total (f : cell -> cell -> result cell) (s : Series) :
  (forall a b, not_Str a -> not_Str b -> exists c, f a b = Return c /\ not_Str c) ->
  Forall (fun c => exists x, to_float c = Return x) (data s) ->
  exists x, Series_reduce f s ≫= float_ = Return x.
Proof.
  intros Hf Hs. unfold Series_reduce.
  assert (Forall not_Str (filter (fun c => negb (isna c)) (data s))) as Hfil.
  { apply List.Forall_forall. intros c [Hc _]%filter_In.
    rewrite List.Forall_forall in Hs. now apply to_float_not_Str, Hs. }
  destruct (filter _ (data s)) as [|c cs]; [cbn; eauto|].
  inversion Hfil as [|? ? Hc Hcs]; subst.
  destruct (reduce_total f c cs Hf Hc Hcs) as (m & -> & Hm).
  cbn [mbind result_bind].
  destruct m as [sm| |]; [now destruct (Hm sm) | cbn; eauto | cbn; eauto].
Qed.

(** [_calculate_stats] returns on every table whose fare column, if any, is
    numeric; the counts never depend on the fare column. *)
Lemma calculate_stats_Return (df : DataFrame) (st : Stats) :
  _calculate_stats df = Return st ->
  total_rows st = len df /\ total_columns st = shape1 df /\
  missing_values st = isnull_sum df /\
  duplicate_rows st = count_true (duplicated df) /\
  (is_Some (fare_stats st) <-> contains (columns df) "Total Fare (BDT)" = true).
Proof.
  unfold _calculate_stats.
  destruct (contains (columns df) "Total Fare (BDT)") eqn:Ht.
  - intros H.
    repeat (let a := fresh "a" in let Ha := fresh "Ha" in
            apply bind_Return in H as (a & Ha & H)).
    injection H as <-. cbn. repeat split; eauto.
  - intros [= <-]. cbn. repeat split; try discriminate.
    now intros [? [=]].
Qed.

Lemma calculate_stats_total (df : DataFrame) :
  numeric_column df "Total Fare (BDT)" = true ->
  exists st, _calculate_stats df = Return st.
Proof.
  intros Hnum. unfold _calculate_stats.
  destruct (contains (columns df) "Total Fare (BDT)") eqn:Ht; [|eauto].
  destruct (getitem_contains _ _ Ht) as (s & -> & Hs).
  pose proof (numeric_data _ _ _ Hnum Hs) as Hd.
  cbn [mbind result_bind].
  destruct (Series_mean_total _ Hd) as [? ->].
  destruct (Series_median_total _ Hd) as [? ->].
  destruct (Series_reduce_total smaller s smaller_total Hd) as [? Hmin].
  destruct (Series_reduce_total larger s larger_total Hd) as [? Hmax].
  destruct (Series_std_total _ Hd) as [? ->].
  unfold Series_min, Series_max. cbn [mbind result_bind].
  rewrite Hmin. cbn [mbind result_bind]. rewrite Hmax. cbn [mbind result_bind].
  eauto.
Qed.

Lemma calculate_stats_absent (df : DataFrame) :
  contains (columns df) "Total Fare (BDT)" = false ->
  _calculate_stats df =
  Return {| total_rows := len df; total_columns := shape1 df;
            missing_values := isnull_sum df;
            duplicate_rows := count_true (duplicated df);
            fare_stats := None |}.
Proof. intros H. unfold _calculate_stats. now rewrite H. Qed.

End Statistics.

Section Symmetry.
Import pandas terms.






End Symmetry.

(** ** Counting missing cells and duplicated rows *)

Section Counts.
Import pandas terms.

Lemma sum_imap_le (f : nat -> nat) (n : nat) (cols : list string) :
  (forall i, f i <= n) ->
  sum_list (map snd (imap (fun i col => (col, f i)) cols)) <= length cols * n.
Proof.
  revert f; induction cols as [|c cols IH]; intros f Hf; [cbn; lia|].
  cbn [imap map snd sum_list sum_list_with length].
  specialize (IH (fun i => f (S i)) (fun i => Hf (S i))).
  specialize (Hf 0). unfold compose. cbn. lia.
Qed.

(** There are no more missing cells than cells. *)
Lemma isnull_sum_sum_le (df : DataFrame) :
  isnull_sum_sum df <= len df * shape1 df.
Proof.
  unfold isnull_sum_sum, isnull_sum, len, shape1.
  rewrite Nat.mul_comm. apply sum_imap_le. intros i.
  etransitivity; [apply count_true_le|].
  unfold column_at. now rewrite !length_map.
Qed.

Lemma duplicated_keys_length (seen keys : list (list cell)) :
  length (duplicated_keys seen keys) = length keys.
Proof.
  revert seen; induction keys as [|k keys IH]; intros seen; cbn; [reflexivity|].
  now rewrite IH.
Qed.

(** The first row is never a duplicate. *)
Lemma duplicated_lt (df : DataFrame) :
  len df <> 0 -> count_true (duplicated df) < len df.
Proof.
  unfold duplicated, len. destruct (values df) as [|r rows]; [easy|].
  intros _. cbn [duplicated_keys existsb length]. unfold count_true. cbn [filter].
  fold (count_true (duplicated_keys [r] rows)).
  pose proof (count_true_le (duplicated_keys [r] rows)) as H.
  rewrite duplicated_keys_length in H. lia.
Qed.

Lemma duplicated_no_rows (df : DataFrame) :
  values df = [] -> count_true (duplicated df) = 0.
Proof. unfold duplicated. now intros ->. Qed.

Lemma isnull_sum_sum_no_rows (df : DataFrame) :
  values df = [] -> isnull_sum_sum df = 0.
Proof.
  intros H. pose proof (isnull_sum_sum_le df) as Hle.
  unfold len in Hle. rewrite H in Hle. cbn in Hle. lia.
Qed.

Lemma contains_shape1 (df : DataFrame) (col : string) :
  contains (columns df) col = true -> shape1 df <> 0.
Proof.
  unfold shape1, contains. now destruct (columns df).
Qed.

End Counts.

(** ** The quality score *)

Section Score.
Import terms.
Local Open Scope Q_scope.

Lemma cell_score_pos (a : Z) (p : positive) :
  (0 <= a)%Z -> (a < 2 * Zpos p)%Z ->
  let q := 100 * (1 - inject_Z a / inject_Z (Zpos p)) in
  -100 < q /\ q <= 100 /\ (0 <= q <-> (a <= Zpos p)%Z).
Proof.
  intros Ha Hlt. unfold Qlt, Qle, Qdiv, Qminus, Qinv, inject_Z. cbn.
  rewrite !Pos.mul_1_l. split; [lia|]. split; [lia|]. split; lia.
Qed.

End Score.

Section QualitySummary.
Import pandas terms data_quality.

Lemma quality_summary_Return (df : DataFrame) (r : QualitySummary) :
  generate_quality_summary df = Return r ->
  contains (columns df) "Total Fare (BDT)" = true /\
  r = {| total_rows := len df;
         total_columns := shape1 df;
         missing_values := isnull_sum_sum df;
         duplicates := count_true (duplicated df);
         quality_score :=
           Float64.mul (Float64.of_Z 100)
             (Float64.sub (Float64.of_Z 1)
                (Float64.div
                   (Float64.of_nat (isnull_sum_sum df + count_true (duplicated df)))
                   (Float64.of_nat (len df * shape1 df)))) |}.
Proof.
  unfold generate_quality_summary. intros H.
  apply bind_Return in H as (s & Hs & H).
  apply getitem_Return in Hs as [Ht _]. split; [assumption|].
  repeat (let a := fresh "a" in let Ha := fresh "Ha" in
          apply bind_Return in H as (a & Ha & H)).
  now injection H.
Qed.

Lemma quality_summary_total (df : DataFrame) :
  contains (columns df) "Total Fare (BDT)" = true ->
  numeric_column df "Total Fare (BDT)" = true ->
  exists r, generate_quality_summary df = Return r.
Proof.
  intros Ht Hnum. unfold generate_quality_summary.
  destruct (getitem_contains _ _ Ht) as (s & -> & Hs).
  pose proof (numeric_data _ _ _ Hnum Hs) as Hd.
  destruct (Series_mean_total _ Hd) as [? Hmean].
  destruct (Series_median_total _ Hd) as [? Hmedian].
  destruct (Series_reduce_total smaller s smaller_total Hd) as [? Hmin].
  destruct (Series_reduce_total larger s larger_total Hd) as [? Hmax].
  destruct (Series_std_total _ Hd) as [? Hstd].
  unfold Series_min, Series_max. cbn [mbind result_bind].
  rewrite Hmin. cbn [mbind result_bind]. rewrite Hmax. cbn [mbind result_bind].
  rewrite Hmean. cbn [mbind result_bind]. rewrite Hmedian. cbn [mbind result_bind].
  rewrite Hstd. cbn [mbind result_bind]. eauto.
Qed.

Lemma quality_summary_missing (df : DataFrame) :
  contains (columns df) "Total Fare (BDT)" = false ->
  generate_quality_summary df = Raise (KeyError "Total Fare (BDT)").
Proof.
  intros H. unfold generate_quality_summary.
  now rewrite (getitem_missing _ _ H).
Qed.

Lemma numeric_column_no_rows (df : DataFrame) (col : string) :
  values df = [] -> numeric_column df col = true.
Proof. unfold numeric_column. now intros ->. Qed.

(** On a table with rows and columns the score is a number, the one
    [cell_score] describes. *)
Lemma quality_score_cells (m d rows cols : nat) :
  rows <> 0 -> cols <> 0 ->
  Float64.mul (Float64.of_Z 100)
    (Float64.sub (Float64.of_Z 1)
       (Float64.div (Float64.of_nat (m + d)) (Float64.of_nat (rows * cols))))
  = Float64.Finite (cell_score m d rows cols).
Proof.
  intros Hr Hc. unfold Float64.of_nat, Float64.of_Z, Float64.div.
  assert (Qeq_bool (inject_Z (Z.of_nat (rows * cols))) 0 = false) as ->.
  { apply not_true_iff_false. rewrite Qeq_bool_iff.
    unfold Qeq, inject_Z. cbn. nia. }
  reflexivity.
Qed.

End QualitySummary.

(** ** The schema on a table without rows *)

Section NoRows.
Import pandas pandera validation terms.

Lemma getitem_no_rows (df : DataFrame) (col : string) (s : Series) :
  values df = [] -> getitem df col = Return s -> data s = [].
Proof. intros Hv [_ ->]%getitem_Return. now rewrite Hv. Qed.

Lemma concat_nils {A B : Type} (l : list A) :
  concat (map (fun _ => @nil B) l) = [].
Proof. induction l; cbn; auto. Qed.

Lemma validate_column_no_rows (df : DataFrame) (name : string) (c : Column) :
  values df = [] ->
  match getitem df name with
  | Return s => dtype_eqb (col_dtype c) (dtype_ s)
  | Raise _ => false
  end = true ->
  validate_column df name c = [].
Proof.
  intros Hv. unfold validate_column.
  destruct (getitem df name) as [s|e] eqn:Hs; [|discriminate].
  intros ->. cbn [negb]. rewrite (getitem_no_rows _ _ _ Hv Hs). cbn [map failing_rows].
  rewrite concat_nils. now destruct (nullable c).
Qed.

Lemma failure_cases_no_rows (schema : DataFrameSchema) (df : DataFrame) :
  values df = [] -> has_declared_columns schema df = true ->
  failure_cases_of schema df = [].
Proof.
  intros Hv. unfold has_declared_columns, failure_cases_of.
  induction (schema_columns schema) as [|[name c] cols IH]; [reflexivity|].
  cbn [forallb map concat fst snd]. intros [Hc Hcols]%andb_true_iff.
  now rewrite (validate_column_no_rows _ _ _ Hv Hc), IH.
Qed.

Lemma numeric_fares_no_rows (df : DataFrame) :
  values df = [] -> numeric_fares df = true.
Proof.
  intros Hv. unfold numeric_fares, fare_cols. cbn [forallb].
  now rewrite !(numeric_column_no_rows _ _ Hv).
Qed.

End NoRows.

(** ** The heap *)

Section Heap.
Import pandas objects terms.

Lemma preserves_refl (h : heap) : preserves h h.
Proof. now intros l df. Qed.


(** A new object does not touch the old ones. *)
Lemma preserves_alloc (h : heap) (df : DataFrame) :
  preserves h (<[fresh (dom h) := df]> h).
Proof.
  intros l df' Hl. rewrite lookup_insert_ne; [assumption|].
  intros <-. apply (is_fresh (dom h)). apply elem_of_dom. eauto.
Qed.

(** Writing to an object that [h0] does not have keeps [h0]. *)
Lemma preserves_insert (h0 h : heap) (t : loc) (df : DataFrame) :
  h0 !! t = None -> preserves h0 h -> preserves h0 (<[t := df]> h).
Proof.
  intros Ht H l df' Hl. rewrite lookup_insert_ne; [now apply H|].
  intros <-. congruence.
Qed.

Context {A B : Type}.

Lemma keeps_bind (h0 : heap) (m : M A) (f : A -> M B) :
  keeps h0 m -> (forall a, keeps h0 (f a)) -> keeps h0 (m ≫= f).
Proof.
  intros Hm Hf h Hh. unfold mbind, M_bind.
  specialize (Hm h Hh). destruct (m h) as [[a|e] h']; cbn in *; [|assumption].
  now apply Hf.
Qed.

Lemma keeps_lift (h0 : heap) (r : result A) : keeps h0 (lift r).
Proof. now intros h Hh. Qed.

End Heap.

Section HeapOps.
Import pandas objects terms.

Lemma keeps_load (h0 : heap) (l : loc) : keeps h0 (load l).
Proof. intros h Hh. unfold load. now destruct (h !! l). Qed.


Lemma keeps_getitem_ref (h0 : heap) (l : loc) (col : string) :
  keeps h0 (getitem_ref l col).
Proof.
  unfold getitem_ref. apply keeps_bind; [apply keeps_load|].
  intros df. apply keeps_lift.
Qed.

Lemma keeps_setitem_ref (h0 : heap) (t : loc) (col : string) (s : Series) :
  h0 !! t = None -> keeps h0 (setitem_ref t col s).
Proof.
  intros Ht h Hh. unfold setitem_ref. destruct (h !! t); cbn; [|assumption].
  now apply preserves_insert.
Qed.

(** What runs on a copy, and writes to the copy only, keeps the heap. *)
Lemma keeps_copy_then {B : Type} (h : heap) (l : loc) (k : loc -> M B) :
  (forall t, h !! t = None -> keeps h (k t)) ->
  preserves h (snd ((copy l ≫= k) h)).
Proof.
  intros Hk. unfold copy, load, alloc, mbind, M_bind.
  destruct (h !! l) as [df|]; cbn [fst snd]; [|apply preserves_refl].
  apply Hk; [apply not_elem_of_dom, is_fresh | apply preserves_alloc].
Qed.

End HeapOps.

(** * The claims of the specification *)

Section Claims.
Import pandas pandera validation objects terms samples.

(** C1. For every snapshot, the result [validate] returns has [is_valid]
    true if and only if its [errors] sequence is empty, that is, if and only
    if the schema check found no failure; [is_valid] is the outcome of the
    schema check alone, whatever the warnings are. *)
Theorem validate_is_valid_iff_no_errors
    (self : FlightDataValidator) (df : DataFrame) (r : Results) :
  validate self df = Return r ->
  (is_valid r = true <-> errors r = []) /\
  (is_valid r = true <-> failure_cases_of (schema self) df = []) /\
  is_valid r = returns (pandera.validate (schema self) df).
Proof.
  intros H. apply validate_Return in H as (ws & st & _ & _ & ->). cbn.
  destruct (pandera_validate_cases (schema self) df) as [[Hfc ->]|[Hfc ->]]; cbn.
  - rewrite Hfc. tauto.
  - repeat split; try discriminate; intros; now exfalso.
Qed.

Lemma validate_is_valid_iff_no_errors_witness :
  exists r, validate init two_fares = Return r /\
            (is_valid r = true <-> errors r = []).
Proof.
  eexists. split; [vm_compute; reflexivity|].
  apply (validate_is_valid_iff_no_errors init two_fares). vm_compute. reflexivity.
Defined.

(** C2, as the code has it.  On every snapshot with zero rows [validate]
    returns, with [total_rows] 0 in its statistics; when the snapshot has
    every column the schema declares, under the declared dtype, the result
    has [is_valid] true and no errors. *)
Theorem validate_zero_rows (self : FlightDataValidator) (df : DataFrame) :
  values df = [] ->
  exists r st,
    validate self df = Return r /\
    stats r = Some st /\ total_rows st = 0 /\
    (has_declared_columns (schema self) df = true ->
     is_valid r = true /\ errors r = []).
Proof.
  intros Hv.
  destruct (check_business_rules_total df (numeric_fares_no_rows _ Hv)) as [ws Hws].
  destruct (calculate_stats_total df (numeric_column_no_rows _ _ Hv)) as [st Hst].
  destruct (validate_returns self df ws st Hws Hst) as [r Hr].
  exists r. pose proof Hr as Hr'.
  apply validate_Return in Hr' as (ws' & st' & _ & Hst' & ->).
  exists st'. split; [assumption|]. cbn [stats is_valid errors].
  split; [reflexivity|].
  apply calculate_stats_Return in Hst' as (Hrows & _).
  split; [unfold len in Hrows; now rewrite Hrows, Hv|].
  intros Hcols. pose proof (failure_cases_no_rows _ _ Hv Hcols) as Hfc.
  unfold pandera.validate. now rewrite Hfc.
Qed.

Lemma validate_zero_rows_witness :
  exists r, validate init header_only = Return r /\
            is_valid r = true /\ errors r = [].
Proof.
  destruct (validate_zero_rows init header_only eq_refl)
    as (r & st & Hr & _ & _ & Hvalid).
  exists r. split; [exact Hr|]. apply Hvalid. vm_compute. reflexivity.
Defined.

(** C2 fails as stated: the table that has the fare column alone, and no
    rows, is not valid; the schema reports the other declared columns as
    absent. *)
Lemma validate_zero_rows_invalid :
  exists r, validate init no_rows = Return r /\
            len no_rows = 0 /\ is_valid r = false /\ errors r <> [].
Proof.
  eexists. split; [vm_compute; reflexivity|]. cbn. repeat split. discriminate.
Qed.

(** C3, as the code has it.  On every non-empty snapshot on which the
    scorer returns, the quality score is
    100 x (1 - (missing cells + duplicate rows) / (rows x columns));
    a table of ten rows with one missing cell and no duplicate row scores
    100 - 10 / columns, which is 95 when it has two columns. *)
Theorem quality_score_counts_cells
    (df : DataFrame) (r : data_quality.QualitySummary) :
  data_quality.generate_quality_summary df = Return r ->
  len df <> 0 ->
  data_quality.quality_score r =
    Float64.Finite (cell_score (isnull_sum_sum df) (full_duplicates df)
                               (len df) (shape1 df)) /\
  (len df = 10 -> isnull_sum_sum df = 1 -> full_duplicates df = 0 ->
   (cell_score (isnull_sum_sum df) (full_duplicates df) (len df) (shape1 df)
    == 100 - 10 / inject_Z (Z.of_nat (shape1 df)))%Q) /\
  (exists r2,
     data_quality.generate_quality_summary ten_rows_two_columns = Return r2 /\
     Float64.equiv (data_quality.quality_score r2) (Float64.Finite 95)).
Proof.
  intros H Hrows. apply quality_summary_Return in H as [Ht ->].
  cbn [data_quality.quality_score]. rewrite <- duplicated_full.
  pose proof (contains_shape1 _ _ Ht) as Hcols.
  split; [now apply quality_score_cells|]. split.
  - intros -> -> ->. unfold cell_score.
    rewrite Nat2Z.inj_mul, inject_Z_mult. cbn [Nat.add Z.of_nat Pos.of_succ_nat Pos.succ].
    assert (~ (inject_Z (Z.of_nat (shape1 df)) == 0)%Q) as Hnz.
    { unfold Qeq, inject_Z. cbn. lia. }
    change (inject_Z 1) with 1%Q. change (inject_Z 10) with 10%Q.
    field. exact Hnz.
  - eexists. split; vm_compute; reflexivity.
Qed.

Lemma quality_score_counts_cells_witness :
  exists r, data_quality.generate_quality_summary ten_rows_two_columns = Return r /\
            data_quality.quality_score r =
              Float64.Finite (cell_score 1 0 10 2).
Proof.
  eexists. split; [vm_compute; reflexivity|].
  refine (proj1 (quality_score_counts_cells ten_rows_two_columns _ eq_refl _)).
  discriminate.
Defined.

(** C3 fails as stated: ten rows, a single row with a missing field, no
    duplicate row; completeness 90 and uniqueness 100 average to 95, and
    the score is 90. *)
Lemma quality_score_is_not_the_average :
  exists r,
    data_quality.generate_quality_summary ten_rows_one_column = Return r /\
    len ten_rows_one_column = 10 /\
    rows_with_no_missing_field ten_rows_one_column = 9 /\
    full_duplicates ten_rows_one_column = 0 /\
    (spec_overall ten_rows_one_column == 95)%Q /\
    Float64.equiv (data_quality.quality_score r) (Float64.Finite 90) /\
    ~ Float64.equiv (data_quality.quality_score r)
        (Float64.Finite (spec_overall ten_rows_one_column)).
Proof.
  eexists. split; [vm_compute; reflexivity|].
  repeat split; try (vm_compute; reflexivity).
  vm_compute. discriminate.
Qed.

(** C4, as the code has it.  On a snapshot with zero rows that has the fare
    column the scorer raises nothing, and the quality score it returns is
    NaN, the 0/0 of numpy's division. *)
Theorem quality_score_zero_rows_is_nan (df : DataFrame) :
  values df = [] ->
  contains (columns df) "Total Fare (BDT)" = true ->
  exists r,
    data_quality.generate_quality_summary df = Return r /\
    data_quality.total_rows r = 0 /\
    data_quality.quality_score r = Float64.NaN.
Proof.
  intros Hv Ht.
  destruct (quality_summary_total df Ht (numeric_column_no_rows _ _ Hv)) as [r Hr].
  exists r. split; [assumption|].
  apply quality_summary_Return in Hr as [_ ->].
  cbn [data_quality.total_rows data_quality.quality_score].
  rewrite (isnull_sum_sum_no_rows _ Hv), (duplicated_no_rows _ Hv).
  unfold len. rewrite Hv. split; reflexivity.
Qed.

Lemma quality_score_zero_rows_is_nan_witness :
  exists r, data_quality.generate_quality_summary no_rows = Return r /\
            data_quality.quality_score r = Float64.NaN.
Proof.
  destruct (quality_score_zero_rows_is_nan no_rows eq_refl eq_refl)
    as (r & Hr & _ & Hq).
  exists r. split; assumption.
Defined.

(** C4 fails as stated: on the fare column without rows the score is not
    100. *)
Lemma quality_score_zero_rows_is_not_100 :
  exists r,
    data_quality.generate_quality_summary no_rows = Return r /\
    len no_rows = 0 /\
    ~ Float64.equiv (data_quality.quality_score r) (Float64.Finite 100).
Proof.
  eexists. split; [vm_compute; reflexivity|]. split; [reflexivity|].
  vm_compute. tauto.
Qed.





(** C7, as the code has it.  On every snapshot whose fare columns hold no
    text, the business-rule checker returns its warnings and raises
    nothing; the warnings are those of the three rules, each evaluated on
    its own, and a rule whose columns are absent contributes no warning
    while the other rules still run. *)
Theorem business_rules_return_on_numeric_fares (df : DataFrame) :
  numeric_fares df = true ->
  exists w1 w2 w3,
    _check_business_rules df = Return (w1 ++ w2 ++ w3) /\
    fare_rule df [] = Return w1 /\
    duplicate_rule df [] = Return w2 /\
    outlier_rule df [] = Return w3 /\
    (forallb (contains (columns df)) fare_cols = false -> w1 = []) /\
    (forallb (contains (columns df)) duplicate_cols = false -> w2 = []) /\
    (contains (columns df) "Total Fare (BDT)" = false -> w3 = []).
Proof.
  intros Hnum. destruct (check_business_rules_total _ Hnum) as [ws Hws].
  pose proof Hws as Hparts.
  apply check_business_rules_parts in Hparts as (w1 & w2 & w3 & H1 & H2 & H3 & ->).
  exists w1, w2, w3. repeat (split; [assumption|]).
  split; [|split].
  - intros Habs. apply fare_rule_Return in H1.
    now rewrite (mismatched_rows_absent _ Habs) in H1.
  - intros Habs. rewrite duplicate_rule_Return, Habs in H2. now injection H2.
  - intros Habs. apply outlier_rule_Return in H3 as (part & -> & Hpart & _).
    now rewrite (Hpart Habs).
Qed.

Lemma business_rules_return_on_numeric_fares_witness :
  exists w3, _check_business_rules one_fare = Return ([] ++ [] ++ w3).
Proof.
  destruct (business_rules_return_on_numeric_fares one_fare eq_refl)
    as (w1 & w2 & w3 & H & _ & _ & _ & H1 & H2 & _).
  exists w3. now rewrite (H1 eq_refl), (H2 eq_refl) in H.
Defined.

(** C7 fails as stated: on a fare column read as text the checker raises
    [TypeError]. *)
Lemma business_rules_raise_on_text_fare :
  _check_business_rules text_fare = Raise TypeError.
Proof. reflexivity. Qed.

(** C8. The statistics hold a [fare_stats] entry if and only if the table
    has the column "Total Fare (BDT)"; without that column the entry is
    absent, and the other statistics are computed all the same. *)
Theorem fare_stats_iff_fare_column (df : DataFrame) (st : Stats) :
  _calculate_stats df = Return st ->
  (is_Some (fare_stats st) <-> contains (columns df) "Total Fare (BDT)" = true) /\
  (contains (columns df) "Total Fare (BDT)" = false ->
   st = {| total_rows := len df; total_columns := shape1 df;
           missing_values := isnull_sum df;
           duplicate_rows := count_true (duplicated df);
           fare_stats := None |}).
Proof.
  intros H. split; [now apply calculate_stats_Return|].
  intros Ht. rewrite (calculate_stats_absent _ Ht) in H. now injection H.
Qed.

Lemma fare_stats_iff_fare_column_witness :
  (exists st, _calculate_stats one_fare = Return st /\ is_Some (fare_stats st)) /\
  (exists st, _calculate_stats no_fare_column = Return st /\ fare_stats st = None).
Proof.
  split.
  - eexists. split; [vm_compute; reflexivity|].
    apply (fare_stats_iff_fare_column one_fare); vm_compute; reflexivity.
  - eexists. split; [vm_compute; reflexivity|]. reflexivity.
Defined.

(** C9, as the code has it.  On every non-empty snapshot on which the
    scorer returns, the quality score is a number, above -100 and at most
    100; it is at least 0 exactly when the missing cells and the duplicate
    rows together are no more than the cells of the table. *)
Theorem quality_score_bounds
    (df : DataFrame) (r : data_quality.QualitySummary) :
  data_quality.generate_quality_summary df = Return r ->
  len df <> 0 ->
  exists q,
    data_quality.quality_score r = Float64.Finite q /\
    (-100 < q)%Q /\ (q <= 100)%Q /\
    ((0 <= q)%Q <->
     isnull_sum_sum df + full_duplicates df <= len df * shape1 df).
Proof.
  intros H Hrows. apply quality_summary_Return in H as [Ht ->].
  cbn [data_quality.quality_score]. rewrite <- duplicated_full.
  pose proof (contains_shape1 _ _ Ht) as Hcols.
  rewrite (quality_score_cells _ _ _ _ Hrows Hcols).
  eexists. split; [reflexivity|].
  pose proof (isnull_sum_sum_le df) as Hm.
  pose proof (duplicated_lt df Hrows) as Hd.
  unfold cell_score.
  destruct (Z.of_nat (len df * shape1 df)) as [|p|p] eqn:Hp; try lia.
  destruct (cell_score_pos (Z.of_nat (isnull_sum_sum df + count_true (duplicated df))) p)
    as (Hlo & Hhi & Hzero); [lia | nia |].
  split; [exact Hlo|]. split; [exact Hhi|].
  rewrite Hzero. lia.
Qed.

Lemma quality_score_bounds_witness :
  exists r q,
    data_quality.generate_quality_summary ten_rows_two_columns = Return r /\
    data_quality.quality_score r = Float64.Finite q /\
    (-100 < q)%Q /\ (q <= 100)%Q.
Proof.
  eexists. 
  destruct (quality_score_bounds ten_rows_two_columns _ eq_refl)
    as (q & Hq & Hlo & Hhi & _); [discriminate|].
  exists q. split; [reflexivity|]. split; [exact Hq|]. split; assumption.
Defined.

(** C9 fails as stated: three rows whose only field is missing count three
    missing cells and two duplicate rows for three cells, and score below
    0. *)
Lemma quality_score_negative :
  exists r q,
    data_quality.generate_quality_summary all_missing = Return r /\
    data_quality.quality_score r = Float64.Finite q /\ (q < 0)%Q.
Proof.
  eexists _, _. split; [vm_compute; reflexivity|]. split; reflexivity.
Qed.


End Claims.

(** * Further properties of the code *)

(** ** Exceptions *)

Section OnlyTypeError.
Import pandas validation terms.

Lemma only_Return {A : Type} (a : A) : only_TypeError (Return a).
Proof. intros e [=]. Qed.

Lemma only_Raise {A : Type} : only_TypeError (@Raise A TypeError).
Proof. now intros e [= <-]. Qed.

Lemma only_bind {A B : Type} (m : result A) (f : A -> result B) :
  only_TypeError m -> (forall a, m = Return a -> only_TypeError (f a)) ->
  only_TypeError (m ≫= f).
Proof.
  intros Hm Hf e. destruct m as [a|e']; cbn.
  - now apply Hf.
  - intros [= <-]. now apply Hm.
Qed.

Lemma only_mapM {A B : Type} (f : A -> result B) (l : list A) :
  (forall a, only_TypeError (f a)) -> only_TypeError (mapM f l).
Proof.
  intros Hf. induction l as [|a l IH]; cbn [mapM]; [apply only_Return|].
  apply only_bind; [apply Hf|]. intros b _.
  apply only_bind; [apply IH|]. intros k _. apply only_Return.
Qed.

Lemma only_to_float (c : cell) : only_TypeError (to_float c).
Proof. destruct c; [apply only_Raise | apply only_Return | apply only_Return]. Qed.

Lemma only_add_cell (a b : cell) : only_TypeError (add_cell a b).
Proof.
  destruct a, b; cbn [add_cell]; try apply only_Return;
    (apply only_bind; [apply only_to_float|]; intros ? _;
     apply only_bind; [apply only_to_float|]; intros ? _; apply only_Return).
Qed.

Lemma only_sub_cell (a b : cell) : only_TypeError (sub_cell a b).
Proof.
  destruct a, b; cbn [sub_cell]; try apply only_Return;
    (apply only_bind; [apply only_to_float|]; intros ? _;
     apply only_bind; [apply only_to_float|]; intros ? _; apply only_Return).
Qed.

Lemma only_abs_cell (a : cell) : only_TypeError (abs_cell a).
Proof. destruct a; [apply only_Raise | apply only_Return | apply only_Return]. Qed.

Lemma only_compare (f : Float64.t -> bool) (a : cell) :
  only_TypeError (x ← to_float a; Return (f x)).
Proof. apply only_bind; [apply only_to_float|]. intros ? _. apply only_Return. Qed.

Lemma only_Series_add (s1 s2 : Series) : only_TypeError (Series_add s1 s2).
Proof.
  unfold Series_add, zip_with_result. apply only_bind; [|intros ? _; apply only_Return].
  apply only_mapM. intros [a b]. apply only_add_cell.
Qed.

Lemma only_Series_sub (s1 s2 : Series) : only_TypeError (Series_sub s1 s2).
Proof.
  unfold Series_sub, zip_with_result. apply only_bind; [|intros ? _; apply only_Return].
  apply only_mapM. intros [a b]. apply only_sub_cell.
Qed.

Lemma only_Series_abs (s : Series) : only_TypeError (Series_abs s).
Proof.
  unfold Series_abs. apply only_bind; [|intros ? _; apply only_Return].
  apply only_mapM, only_abs_cell.
Qed.

Lemma only_Series_gt (s : Series) (x : Float64.t) : only_TypeError (Series_gt s x).
Proof. apply only_mapM. intros a. apply only_compare. Qed.

Lemma only_Series_lt (s : Series) (x : Float64.t) : only_TypeError (Series_lt s x).
Proof. apply only_mapM. intros a. apply only_compare. Qed.

Lemma only_ensure_numeric (s : Series) : only_TypeError (_ensure_numeric s).
Proof. apply only_mapM, only_to_float. Qed.

Lemma only_Series_median (s : Series) : only_TypeError (Series_median s).
Proof.
  unfold Series_median. apply only_bind; [apply only_ensure_numeric|]. intros xs _.
  cbv zeta. destruct (_ =? 0)%nat; [apply only_Return|].
  destruct (Nat.even _); apply only_Return.
Qed.

Lemma only_Series_mean (s : Series) : only_TypeError (Series_mean s).
Proof.
  unfold Series_mean. apply only_bind; [apply only_ensure_numeric|]. intros xs _.
  apply only_Return.
Qed.

Lemma only_getitem (df : DataFrame) (col : string) :
  contains (columns df) col = true -> only_TypeError (getitem df col).
Proof. intros (s & -> & _)%getitem_contains. apply only_Return. Qed.

Lemma only_fare_rule (df : DataFrame) (ws : list Warning) :
  only_TypeError (fare_rule df ws).
Proof.
  unfold fare_rule. destruct (forallb _ fare_cols) eqn:Hcols; [|apply only_Return].
  cbn [forallb fare_cols] in Hcols.
  apply andb_true_iff in Hcols as [Hb [Hx [Ht _]%andb_true_iff]%andb_true_iff].
  repeat first
    [ apply only_getitem; assumption | apply only_Series_add | apply only_Series_sub
    | apply only_Series_abs | apply only_Series_gt | apply only_Return
    | apply only_bind; [|intros ? _]
    | match goal with |- only_TypeError (if ?c then _ else _) => destruct c end ].
Qed.

Lemma only_outlier_rule (df : DataFrame) (ws : list Warning) :
  only_TypeError (outlier_rule df ws).
Proof.
  unfold outlier_rule. destruct (contains _ _) eqn:Ht; [|apply only_Return].
  repeat first
    [ apply only_getitem; assumption | apply only_Series_median
    | apply only_Series_gt | apply only_Series_lt | apply only_Return
    | apply only_bind; [|intros ? _]
    | match goal with |- only_TypeError (if ?c then _ else _) => destruct c end ].
Qed.

Lemma only_check_business_rules (df : DataFrame) :
  only_TypeError (_check_business_rules df).
Proof.
  unfold _check_business_rules.
  apply only_bind; [apply only_fare_rule|]. intros w1 _.
  apply only_bind; [rewrite duplicate_rule_Return; apply only_Return|]. intros w2 _.
  apply only_bind; [apply only_outlier_rule|]. intros w3 _. apply only_Return.
Qed.

(** Once the mean of the fares could be taken, the other statistics can. *)
Lemma only_calculate_stats (df : DataFrame) : only_TypeError (_calculate_stats df).
Proof.
  unfold _calculate_stats. destruct (contains _ _) eqn:Ht; [|apply only_Return].
  destruct (getitem_contains _ _ Ht) as (s & Hs & Hd). rewrite Hs.
  cbn [mbind result_bind].
  apply only_bind; [apply only_Series_mean|]. intros m Hm.
  assert (Forall (fun c => exists x, to_float c = Return x) (data s)) as Hnum.
  { unfold Series_mean in Hm. apply bind_Return in Hm as (xs & Hxs & _).
    apply mapM_Return in Hxs. clear -Hxs.
    induction Hxs; constructor; eauto. }
  destruct (Series_median_total _ Hnum) as [? ->].
  destruct (Series_reduce_total smaller s smaller_total Hnum) as [? Hmin].
  destruct (Series_reduce_total larger s larger_total Hnum) as [? Hmax].
  destruct (Series_std_total _ Hnum) as [? ->].
  unfold Series_min, Series_max. cbn [mbind result_bind].
  rewrite Hmin. cbn [mbind result_bind]. rewrite Hmax. cbn [mbind result_bind].
  apply only_Return.
Qed.

End OnlyTypeError.

(** ** The outlier rule *)

Section Outliers.
Import pandas validation terms.

Lemma outlier_masks (f : list cell -> cell) (a b : Float64.t)
    (rows : list (list cell)) (hi lo : list bool) :
  mapM (gt_cell a) (map f rows) = Return hi ->
  mapM (lt_cell b) (map f rows) = Return lo ->
  mask_or hi lo =
  map (fun r => match to_float (f r) with
                | Return x => Float64.gtb x a || Float64.ltb x b
                | Raise _ => false
                end) rows.
Proof.
  revert hi lo; induction rows as [|r rows IH]; intros hi lo.
  - now intros [= <-] [= <-].
  - cbn [map mapM]. intros Hhi Hlo.
    apply bind_Return in Hhi as (h & Hh & Hhi).
    apply bind_Return in Hhi as (hi' & Hhi & [= <-]).
    apply bind_Return in Hlo as (l & Hl & Hlo).
    apply bind_Return in Hlo as (lo' & Hlo & [= <-]).
    unfold mask_or. cbn [zip_with]. f_equal; [|now apply IH].
    unfold gt_cell, lt_cell in Hh, Hl.
    destruct (to_float (f r)); [|discriminate].
    cbn in Hh, Hl. now injection Hh as <-; injection Hl as <-.
Qed.

Lemma extreme_fare_nan (m : Float64.t) : extreme_fare m Float64.NaN = false.
Proof.
  unfold extreme_fare, Float64.gtb.
  now destruct (Float64.mul m _), (Float64.mul m _).
Qed.

(** A missing fare is never an outlier. *)
Lemma row_outlier_missing (df : DataFrame) (row : list cell) :
  isna (cell_at df "Total Fare (BDT)" row) = true -> row_outlier df row = false.
Proof.
  unfold row_outlier. destruct (cell_at _ _ _) as [|[| |]|]; try discriminate.
  intros _. apply extreme_fare_nan.
Qed.

Lemma outlier_rows_absent (df : DataFrame) :
  contains (columns df) "Total Fare (BDT)" = false -> outlier_rows df = 0.
Proof.
  intros H. unfold outlier_rows, count_true.
  induction (values df) as [|r rows IH]; [reflexivity|].
  cbn [map filter]. rewrite row_outlier_missing; [assumption|].
  now rewrite (cell_at_missing _ _ _ H).
Qed.

(** The outlier rule adds its warning exactly when some fare is extreme, and
    names the number of such rows. *)
Lemma outlier_rule_exact (df : DataFrame) (ws ws' : list Warning) :
  outlier_rule df ws = Return ws' ->
  ws' = ws ++ (if (0 <? outlier_rows df)%nat
               then [outlier_warning (outlier_rows df)] else []).
Proof.
  unfold outlier_rule.
  destruct (contains (columns df) "Total Fare (BDT)") eqn:Ht.
  - destruct (getitem_contains _ _ Ht) as (s & Hs & Hd). rewrite Hs.
    cbn [mbind result_bind]. intros H.
    apply bind_Return in H as (m & Hm & H).
    apply bind_Return in H as (hi & Hhi & H).
    apply bind_Return in H as (lo & Hlo & H).
    unfold Series_gt, Series_lt in Hhi, Hlo. rewrite Hd in Hhi, Hlo.
    rewrite (outlier_masks _ _ _ _ _ _ Hhi Hlo) in H.
    assert (median_fare df = m) as Hmed.
    { unfold median_fare. rewrite Hs. cbn [mbind result_bind]. now rewrite Hm. }
    assert (count_true
              (map (fun r => match to_float (cell_at df "Total Fare (BDT)" r) with
                             | Return x =>
                                 Float64.gtb x (Float64.mul m (Float64.of_Z 10))
                                 || Float64.ltb x (Float64.mul m (Float64.Finite (1 # 10)))
                             | Raise _ => false
                             end) (values df)) = outlier_rows df) as Hn.
    { unfold outlier_rows, row_outlier, extreme_fare. now rewrite Hmed. }
    rewrite Hn in H.
    destruct (0 <? outlier_rows df)%nat; injection H as <-;
      [reflexivity | now rewrite app_nil_r].
  - intros [= <-]. rewrite (outlier_rows_absent _ Ht). cbn. now rewrite app_nil_r.
Qed.

(** All the warnings of [_check_business_rules], in their order. *)
Lemma check_business_rules_exact (df : DataFrame) (ws : list Warning) :
  _check_business_rules df = Return ws ->
  ws = (if (0 <? mismatched_rows df)%nat
        then [fare_warning (mismatched_rows df)] else [])
       ++ (if forallb (contains (columns df)) duplicate_cols
              && (0 <? duplicate_flights df)%nat
           then [duplicate_warning (duplicate_flights df)] else [])
       ++ (if (0 <? outlier_rows df)%nat
           then [outlier_warning (outlier_rows df)] else []).
Proof.
  intros H. apply check_business_rules_parts in H as (w1 & w2 & w3 & H1 & H2 & H3 & ->).
  apply fare_rule_Return in H1 as ->. rewrite duplicate_rule_Return in H2.
  injection H2 as <-. apply outlier_rule_exact in H3 as ->. reflexivity.
Qed.

End Outliers.

(** ** More on duplicates *)

Section DuplicateKeys.
Import pandas validation terms.

Lemma count_true_mono (l1 l2 : list bool) :
  Forall2 (fun a b => a = true -> b = true) l1 l2 ->
  count_true l1 <= count_true l2.
Proof.
  unfold count_true. induction 1 as [|a b l1 l2 Hab _ IH]; [reflexivity|].
  cbn [filter]. destruct a; [rewrite (Hab eq_refl); cbn; lia|].
  destruct b; cbn; lia.
Qed.

(** Rows that are equal have equal cells at every position. *)
Lemma row_eqb_nth (r r' : list cell) (i : nat) :
  row_eqb r r' = true -> cell_eqb (nth i r nan) (nth i r' nan) = true.
Proof.
  revert r' i; induction r as [|c r IH]; intros [|c' r'] i; cbn [row_eqb];
    try discriminate.
  - intros _. now destruct i.
  - intros [Hc Hr]%andb_true_iff. destruct i; cbn [nth]; auto.
Qed.

Lemma row_eqb_project (r r' : list cell) (ixs : list nat) :
  row_eqb r r' = true ->
  row_eqb (map (fun i => nth i r nan) ixs) (map (fun i => nth i r' nan) ixs) = true.
Proof.
  intros H. induction ixs as [|i ixs IH]; cbn [map row_eqb]; [reflexivity|].
  now rewrite (row_eqb_nth _ _ i H), IH.
Qed.

Lemma duplicated_keys_project (ixs : list nat) (seen rows : list (list cell)) :
  let key := fun r : list cell => map (fun i => nth i r nan) ixs in
  Forall2 (fun a b => a = true -> b = true)
          (duplicated_keys seen rows)
          (duplicated_keys (map key seen) (map key rows)).
Proof.
  intros key. revert seen; induction rows as [|r rows IH]; intros seen;
    cbn [map duplicated_keys]; constructor.
  - rewrite !existsb_exists. intros (r' & Hin & Heq).
    exists (key r'). split; [now apply in_map|].
    now apply row_eqb_project.
  - apply (IH (r :: seen)).
Qed.

(** A row that repeats an earlier row in full repeats it on the key. *)
Lemma full_duplicates_le_flights (df : DataFrame) :
  forallb (contains (columns df)) duplicate_cols = true ->
  full_duplicates df <= duplicate_flights df.
Proof.
  intros H. destruct (get_locs_contains _ _ H) as [ixs Hixs].
  unfold full_duplicates, duplicate_flights.
  rewrite <- !duplicated_keys_repeats.
  replace (map (key_of df) (values df))
    with (map (fun r : list cell => map (fun i => nth i r nan) ixs) (values df)).
  - apply count_true_mono. apply (duplicated_keys_project ixs []).
  - apply map_ext. intros row. unfold key_of. now apply get_locs_cell_at.
Qed.

End DuplicateKeys.

(** ** The missing-value counts *)

Section MissingCounts.
Import pandas validation terms.

Lemma imap_fst (f : nat -> nat) (cols : list string) :
  map fst (imap (fun i col => (col, f i)) cols) = cols.
Proof.
  revert f; induction cols as [|c cols IH]; intros f; cbn [imap map fst];
    [reflexivity|].
  f_equal. apply (IH (fun i => f (S i))).
Qed.

Lemma isnull_sum_fst (df : DataFrame) : map fst (isnull_sum df) = columns df.
Proof. apply imap_fst. Qed.

Lemma isnull_sum_lookup (df : DataFrame) (i : nat) :
  isnull_sum df !! i = (fun col => (col, missing_in_column df i)) <$> columns df !! i.
Proof.
  unfold isnull_sum. rewrite list_lookup_imap.
  destruct (columns df !! i); cbn; [|reflexivity].
  unfold missing_in_column, column_at. now rewrite map_map.
Qed.

Lemma missing_in_column_le (df : DataFrame) (i : nat) :
  missing_in_column df i <= len df.
Proof.
  unfold missing_in_column, len. etransitivity; [apply count_true_le|].
  now rewrite length_map.
Qed.

End MissingCounts.

(** ** Assigning a column *)

Section SetItem.
Import pandas terms.







Lemma zip_with_map_r {A B C : Type} (g : A -> B -> C) (f : A -> B) (l : list A) :
  zip_with g l (map f l) = map (fun a => g a (f a)) l.
Proof. induction l as [|a l IH]; cbn; [reflexivity | now rewrite IH]. Qed.

(** The rows after assigning a column computed row by row. *)
Lemma setitem_map (df : DataFrame) (col : string) (d : dtype)
    (f : list cell -> cell) :
  values (setitem df col {| dtype_ := d; data := map f (values df) |}) =
  map (fun row => set_cell df col (f row) row) (values df).
Proof.
  unfold setitem, set_cell, set_column, append_column.
  destruct (get_loc (columns df) col) as [i|]; cbn [values data].
  - apply (zip_with_map_r (fun row c => <[i := c]> row)).
  - apply (zip_with_map_r (fun row c => row ++ [c])).
Qed.

Lemma columns_setitem (df : DataFrame) (col : string) (s : Series) :
  columns (setitem df col s) =
  if contains (columns df) col then columns df else columns df ++ [col].
Proof.
  unfold setitem. destruct (get_loc (columns df) col) as [i|] eqn:Hi; cbn.
  - assert (contains (columns df) col = true) as -> by (apply contains_get_loc; eauto).
    reflexivity.
  - apply not_contains_get_loc in Hi. now rewrite Hi.
Qed.



Lemma getitem_data (df : DataFrame) (col : string) :
  contains (columns df) col = true ->
  exists d, getitem df col =
            Return {| dtype_ := d; data := map (cell_at df col) (values df) |}.
Proof.
  intros (s & Hs & Hd)%getitem_contains. destruct s as [d cs]. cbn in Hd. subst cs.
  eauto.
Qed.

Lemma mapM_map {A B : Type} (f : A -> result B) (g : A -> B) (l : list A) :
  Forall (fun a => f a = Return (g a)) l -> mapM f l = Return (map g l).
Proof.
  induction 1 as [|a l Ha _ IH]; cbn [mapM map]; [reflexivity|].
  rewrite Ha. cbn [mbind result_bind]. rewrite IH. reflexivity.
Qed.

Lemma zip_with_result_map {A B C : Type} (f : B -> C -> result A)
    (g : list cell -> A) (fb : list cell -> B) (fc : list cell -> C)
    (rows : list (list cell)) :
  Forall (fun r => f (fb r) (fc r) = Return (g r)) rows ->
  zip_with_result f (map fb rows) (map fc rows) = Return (map g rows).
Proof.
  unfold zip_with_result.
  induction 1 as [|r rows Hr _ IH]; cbn [map zip zip_with mapM fst snd]; [reflexivity|].
  rewrite Hr. cbn [mbind result_bind]. rewrite IH. reflexivity.
Qed.

Lemma select_map {A B : Type} (p : A -> bool) (g : A -> B) (l : list A) :
  map snd (filter fst (zip (map p l) (map g l))) = map g (filter p l).
Proof.
  induction l as [|a l IH]; cbn [map zip zip_with filter fst snd]; [reflexivity|].
  destruct (p a); cbn [map snd]; now rewrite IH.
Qed.

End SetItem.

(** ** Running a computation on the heap *)

Section Run.
Import pandas objects terms.

Context {A B : Type}.

Lemma run_bind (m : M A) (f : A -> M B) (h h' : heap) (a : A) :
  m h = (Return a, h') -> (m ≫= f) h = f a h'.
Proof. intros H. unfold mbind, M_bind. now rewrite H. Qed.

Lemma run_bind_Raise (m : M A) (f : A -> M B) (h h' : heap) (e : exn) :
  m h = (Raise e, h') -> (m ≫= f) h = (Raise e, h').
Proof. intros H. unfold mbind, M_bind. now rewrite H. Qed.

End Run.

Section RunOps.
Import pandas objects terms.

Lemma run_load (l : loc) (h : heap) (df : DataFrame) :
  h !! l = Some df -> load l h = (Return df, h).
Proof. intros H. unfold load. now rewrite H. Qed.

Lemma run_copy (l : loc) (h : heap) (df : DataFrame) :
  h !! l = Some df ->
  copy l h = (Return (fresh (dom h)), <[fresh (dom h) := df]> h).
Proof. intros H. unfold copy. now rewrite (run_bind _ _ _ _ _ (run_load _ _ _ H)). Qed.

Lemma run_getitem_ref (l : loc) (col : string) (h : heap) (df : DataFrame) :
  h !! l = Some df -> getitem_ref l col h = (getitem df col, h).
Proof.
  intros H. unfold getitem_ref. now rewrite (run_bind _ _ _ _ _ (run_load _ _ _ H)).
Qed.

Lemma run_setitem_ref (l : loc) (col : string) (s : Series) (h : heap)
    (df : DataFrame) :
  h !! l = Some df ->
  setitem_ref l col s h = (Return tt, <[l := setitem df col s]> h).
Proof. intros H. unfold setitem_ref. now rewrite H. Qed.

Lemma fresh_not_in (h : heap) : h !! fresh (dom h) = None.
Proof. apply not_elem_of_dom, is_fresh. Qed.

End RunOps.

(** ** The fare check of the quality script, row by row *)

Section VerifyRows.
Import pandas terms Float64Facts.

#[local] Opaque Float64.add Float64.sub Float64.abs Float64.gtb Float64.of_Z.


#[local] Transparent Float64.add Float64.sub Float64.abs Float64.gtb Float64.of_Z.




End VerifyRows.

(** ** The fare check of the quality script, on the heap *)

Section VerifyRun.
Import pandas objects terms.






Lemma filter_Forall {A : Type} (p : A -> bool) (P : A -> Prop) (l : list A) :
  Forall P l -> Forall P (filter p l).
Proof.
  rewrite !List.Forall_forall. intros H a [Ha _]%filter_In. auto.
Qed.

End VerifyRun.

Lemma mapM_map_compose {A B C : Type} (f : B -> result C) (g : A -> B) (l : list A) :
  mapM f (map g l) = mapM (fun a => f (g a)) l.
Proof. induction l as [|a l IH]; cbn [map mapM]; [reflexivity | now rewrite IH]. Qed.

Section VerifyReport.
Import pandas objects terms.


End VerifyReport.

(** ** The route feature *)

Section Route.
Import pandas objects terms.

Lemma keeps_ret {A : Type} (h0 : heap) (a : A) : keeps h0 (mret a).
Proof. now intros h Hh. Qed.


Lemma text_column_cells (df : DataFrame) (col : string) :
  text_column df col = true ->
  Forall (fun row => (exists s, cell_at df col row = Str s) \/
                     cell_at df col row = nan) (values df).
Proof.
  unfold text_column. rewrite forallb_forall, List.Forall_forall.
  intros H row Hrow. specialize (H row Hrow).
  destruct (cell_at df col row) as [s|[| |]|]; try discriminate; eauto.
Qed.


End Route.

(** ** The reports of the quality script *)

Section Reports.
Import pandas terms.

#[global] Instance not_below_total (i : nat) : Total (not_below i).
Proof. intros r1 r2. unfold not_below. lia. Qed.

#[global] Instance not_below_trans (i : nat) : Transitive (not_below i).
Proof. intros r1 r2 r3. unfold not_below. lia. Qed.

Lemma filter_Permutation_bool {A : Type} (p : A -> bool) (l l' : list A) :
  Permutation l l' -> Permutation (List.filter p l) (List.filter p l').
Proof.
  induction 1 as [|x l l' _ IH|x y l|l l' l'' _ IH1 _ IH2]; cbn [List.filter].
  - constructor.
  - destruct (p x); [now constructor | assumption].
  - destruct (p x), (p y); try reflexivity. constructor.
  - now transitivity (List.filter p l').
Qed.

Lemma filter_StronglySorted {A : Type} (R : A -> A -> Prop) (p : A -> bool)
    (l : list A) :
  StronglySorted R l -> StronglySorted R (List.filter p l).
Proof.
  induction 1 as [|x l _ IH Hx]; cbn [List.filter]; [constructor|].
  destruct (p x); [|assumption]. constructor; [assumption|].
  now apply filter_Forall.
Qed.

Lemma filter_map_bool {A B : Type} (p : B -> bool) (f : A -> B) (l : list A) :
  List.filter p (map f l) = map f (List.filter (fun a => p (f a)) l).
Proof.
  induction l as [|a l IH]; cbn [map List.filter]; [reflexivity|].
  destruct (p (f a)); cbn [map]; now rewrite IH.
Qed.

Lemma gt_zero_Int (z : Z) :
  Float64.gtb (Float64.of_Z z) (Float64.of_Z 0) = (0 <? z)%Z.
Proof.
  unfold Float64.gtb, Float64.ltb, Float64.of_Z, Float64.Qltb, inject_Z, Qle_bool.
  cbn. rewrite Z.mul_1_r. change (0 * 1)%Z with 0%Z.
  now rewrite Z.ltb_antisym.
Qed.

(** What [check_missing_values] returns: the reported rows are those of the
    columns with a missing value, sorted by their counts. *)
Lemma check_missing_values_Return (df : DataFrame) :
  data_quality.check_missing_values df =
  Return {| columns := ["Column"; "Missing Count"; "Percentage"];
            dtypes := [object; int64; float64];
            values := List.filter (fun row => (0 <? int_at 1 row)%Z)
                        (sort_values_desc 1 (map (missing_row df) (isnull_sum df))) |}.
Proof.
  unfold data_quality.check_missing_values. cbv zeta. cbn [columns dtypes values].
  rewrite (zip_with_map_r
             (fun p pct => [Str (fst p); Int (Z.of_nat (snd p)); Float pct])).
  fold (missing_row df).
  change (fun a : string * nat => _) with (missing_row df).
  set (sorted := sort_values_desc 1 (map (missing_row df) (isnull_sum df))).
  unfold getitem. cbn [get_loc columns String.eqb Ascii.eqb Bool.eqb fmap option_fmap option_map
                        dtypes nth values mbind result_bind].
  assert (Forall (fun row => exists z, nth 1 row nan = Int z) sorted) as Hint.
  { assert (Forall (fun row => exists z, nth 1 row nan = Int z)
                   (map (missing_row df) (isnull_sum df))) as H0.
    { apply List.Forall_map, List.Forall_forall. intros p _. cbn. eauto. }
    rewrite List.Forall_forall in *. intros row Hrow. apply H0.
    eapply Permutation_in; [|exact Hrow]. apply merge_sort_Permutation. }
  assert (Series_gt {| dtype_ := int64; data := column_at 1 sorted |} (Float64.of_Z 0)
          = Return (map (fun row => (0 <? int_at 1 row)%Z) sorted)) as ->.
  { unfold Series_gt, column_at. cbn [data]. rewrite mapM_map_compose.
    apply mapM_map. eapply Forall_impl; [|exact Hint].
    intros row [z Hz]. unfold gt_cell, int_at. rewrite Hz. cbn [to_float mbind result_bind].
    now rewrite gt_zero_Int. }
  cbn [mbind result_bind]. unfold getitem_mask. cbn [columns dtypes values].
  do 2 f_equal.
  rewrite <- (map_id sorted) at 2. rewrite select_map. apply map_id.
Qed.

Lemma missing_row_positive (df : DataFrame) (p : string * nat) :
  (0 <? int_at 1 (missing_row df p))%Z = (0 <? snd p)%nat.
Proof.
  unfold int_at, missing_row. cbn [nth]. apply eq_true_iff_eq.
  rewrite Z.ltb_lt, Nat.ltb_lt. lia.
Qed.

Lemma get_locs_missing (cols subset : list string) :
  forallb (contains cols) subset = false ->
  exists k, In k subset /\ contains cols k = false /\
            get_locs cols subset = Raise (KeyError k).
Proof.
  induction subset as [|c subset IH]; cbn [forallb get_locs]; [discriminate|].
  destruct (contains cols c) eqn:Hc; cbn [andb].
  - intros (k & Hk & Hck & Hr)%IH. exists k.
    apply contains_get_loc in Hc as [i ->]. rewrite Hr. cbn. auto.
  - intros _. exists c. pose proof Hc as Hc'.
    apply not_contains_get_loc in Hc as ->. cbn. auto.
Qed.

End Reports.

(** ** When the validator returns *)

Section Returns.
Import pandas pandera validation terms.

Lemma mapM_Return_Forall {A B : Type} (f : A -> result B) (l : list A) (k : list B) :
  mapM f l = Return k -> Forall (fun a => exists b, f a = Return b) l.
Proof.
  intros H%mapM_Return. induction H; constructor; eauto.
Qed.

Lemma numeric_column_of_data (df : DataFrame) (col : string) (s : Series) :
  getitem df col = Return s ->
  Forall (fun c => exists x, to_float c = Return x) (data s) ->
  numeric_column df col = true.
Proof.
  intros [_ Hd]%getitem_Return. rewrite Hd, List.Forall_map, List.Forall_forall.
  intros H. unfold numeric_column. apply forallb_forall. intros row Hrow.
  destruct (H row Hrow) as [x Hx]. now destruct (cell_at df col row).
Qed.







End Returns.

(** ** A perfect score *)

Section Perfect.
Import terms.
Local Open Scope Q_scope.

Lemma cell_score_100 (a : Z) (p : positive) :
  (0 <= a)%Z ->
  (100 * (1 - inject_Z a / inject_Z (Zpos p)) == 100 <-> a = 0%Z).
Proof.
  intros Ha. unfold Qeq, Qdiv, Qminus, Qinv, inject_Z. cbn.
  rewrite !Pos.mul_1_l. split; intros H; nia.
Qed.

End Perfect.

(** ** Counting and filtering *)

Section CountFilter.
Import pandas terms.



Lemma filter_nil_sum (l : list (string * nat)) :
  List.filter (fun p => (0 <? snd p)%nat) l = [] <-> sum_list (map snd l) = 0.
Proof.
  induction l as [|[c n] l IH]; [easy|].
  change (sum_list (map snd ((c, n) :: l))) with (n + sum_list (map snd l)).
  cbn [List.filter snd]. destruct (0 <? n)%nat eqn:Hn.
  - apply Nat.ltb_lt in Hn. split; [discriminate | lia].
  - apply Nat.ltb_ge in Hn. rewrite IH. lia.
Qed.

End CountFilter.

(** * Further results *)

Section Further.
Import pandas pandera objects validation terms samples.

(** ** The validator *)



(** X2. The warnings of the validator come in the order of its rules, fare
    consistency, duplicate flights, outliers, with at most one warning per
    rule. *)
Theorem warnings_follow_rule_order (df : DataFrame) (ws : list Warning) :
  _check_business_rules df = Return ws ->
  sublist (map rule ws)
          ["Total Fare Calculation"; "Duplicate Flights"; "Fare Outliers"] /\
  length ws <= 3.
Proof.
  intros H. rewrite (check_business_rules_exact _ _ H).
  destruct (0 <? mismatched_rows df)%nat, (forallb _ _ && _),
    (0 <? outlier_rows df)%nat; cbn; (split; [|lia]);
    repeat first [apply sublist_nil | apply sublist_skip | apply sublist_cons].
Qed.

Lemma warnings_follow_rule_order_witness :
  exists ws,
    _check_business_rules two_fares = Return ws /\
    sublist (map rule ws)
            ["Total Fare Calculation"; "Duplicate Flights"; "Fare Outliers"].
Proof.
  eexists. split; [vm_compute; reflexivity|].
  apply (warnings_follow_rule_order two_fares). vm_compute. reflexivity.
Defined.

(** X3. When [validate] fails it is with a [TypeError]: the schema errors
    are caught and reported in the result, and an absent column makes a
    rule or the fare statistics be skipped, never a [KeyError].  (The schema
    check itself is taken to raise nothing but [SchemaErrors].) *)
Theorem validate_raises_only_TypeError
    (self : FlightDataValidator) (df : DataFrame) (e : exn) :
  validate self df = Raise e -> e = TypeError.
Proof.
  unfold validate.
  destruct (pandera_validate_cases (schema self) df) as [[_ ->]|[_ ->]];
    cbn [mbind result_bind]; revert e;
    (apply only_bind; [apply only_check_business_rules|]; intros ws _;
     apply only_bind; [apply only_calculate_stats|]; intros st _;
     apply only_Return).
Qed.

Lemma validate_raises_only_TypeError_witness :
  exists e, validate init text_fare = Raise e /\ e = TypeError.
Proof.
  eexists. split; [vm_compute; reflexivity|].
  apply (validate_raises_only_TypeError init text_fare). vm_compute. reflexivity.
Defined.


(** X5. An empty table gets no warning. *)
Theorem no_rows_no_warnings (self : FlightDataValidator) (df : DataFrame) :
  values df = [] ->
  exists r, validate self df = Return r /\ warnings r = [].
Proof.
  intros Hv.
  destruct (check_business_rules_total df (numeric_fares_no_rows _ Hv)) as [ws Hws].
  destruct (calculate_stats_total df (numeric_column_no_rows _ _ Hv)) as [st Hst].
  destruct (validate_returns self df ws st Hws Hst) as [r Hr].
  exists r. split; [exact Hr|].
  apply validate_Return in Hr as (ws' & st' & Hws' & _ & ->). cbn [warnings].
  rewrite (check_business_rules_exact _ _ Hws').
  unfold mismatched_rows, terms.duplicate_flights, outlier_rows. rewrite Hv.
  cbn. now rewrite andb_false_r.
Qed.

Lemma no_rows_no_warnings_witness :
  exists r, validate init header_only = Return r /\ warnings r = [].
Proof. apply (no_rows_no_warnings init header_only). reflexivity. Defined.

(** X6. The missing-value counts of the statistics are keyed by the columns
    of the table, in their order; each count is the number of rows whose
    cell in that column is missing, and is at most the number of rows. *)
Theorem stats_missing_values_per_column (df : DataFrame) (st : Stats) :
  _calculate_stats df = Return st ->
  map fst (missing_values st) = columns df /\
  forall i col n,
    missing_values st !! i = Some (col, n) ->
    columns df !! i = Some col /\ n = missing_in_column df i /\
    n <= total_rows st.
Proof.
  intros (Hrows & _ & Hm & _)%calculate_stats_Return. rewrite Hm, Hrows.
  split; [apply isnull_sum_fst|]. intros i col n Hi.
  rewrite isnull_sum_lookup in Hi.
  destruct (columns df !! i) as [c|]; cbn in Hi; [|discriminate].
  injection Hi as -> <-.
  split; [reflexivity|]. split; [reflexivity | apply missing_in_column_le].
Qed.

Lemma stats_missing_values_per_column_witness :
  exists st,
    _calculate_stats holes = Return st /\
    map fst (missing_values st) = ["Airline"; "Total Fare (BDT)"; "Aircraft Type"].
Proof.
  eexists. split; [vm_compute; reflexivity|].
  apply (stats_missing_values_per_column holes). vm_compute. reflexivity.
Defined.



(** ** The quality script *)

(** X8. [check_missing_values] always returns a table with the columns
    Column, Missing Count and Percentage, which has one row for every column
    of the input with a missing value (its name, its number of missing
    values and their share of the rows) and no other row; it is empty
    exactly when the input has no missing value. *)
Theorem check_missing_values_rows (df : DataFrame) :
  exists out,
    data_quality.check_missing_values df = Return out /\
    columns out = ["Column"; "Missing Count"; "Percentage"] /\
    Permutation (values out)
      (map (missing_row df)
           (List.filter (fun p => (0 <? snd p)%nat) (isnull_sum df))) /\
    (values out = [] <-> isnull_sum_sum df = 0).
Proof.
  rewrite check_missing_values_Return. eexists. split; [reflexivity|].
  cbn [columns values]. split; [reflexivity|].
  assert (Permutation
            (List.filter (fun row => (0 <? int_at 1 row)%Z)
               (sort_values_desc 1 (map (missing_row df) (isnull_sum df))))
            (map (missing_row df)
               (List.filter (fun p => (0 <? snd p)%nat) (isnull_sum df)))) as Hperm.
  { etransitivity;
      [apply filter_Permutation_bool, merge_sort_Permutation|].
    rewrite filter_map_bool.
    erewrite List.filter_ext; [reflexivity|].
    intros p. apply missing_row_positive. }
  split; [exact Hperm|].
  unfold isnull_sum_sum. rewrite <- filter_nil_sum. split.
  - intros Hnil. rewrite Hnil in Hperm. apply Permutation_nil in Hperm.
    now apply map_eq_nil in Hperm.
  - intros Hnil. rewrite Hnil in Hperm. cbn [map] in Hperm.
    symmetry in Hperm. now apply Permutation_nil in Hperm.
Qed.

(** X9. The rows [check_missing_values] reports are sorted by their number
    of missing values, largest first, and each has at least one. *)
Theorem check_missing_values_sorted (df out : DataFrame) :
  data_quality.check_missing_values df = Return out ->
  StronglySorted (fun r1 r2 => (int_at 1 r2 <= int_at 1 r1)%Z) (values out) /\
  Forall (fun r => (0 < int_at 1 r)%Z) (values out).
Proof.
  rewrite check_missing_values_Return. intros [= <-]. cbn [values]. split.
  - apply filter_StronglySorted.
    apply (StronglySorted_merge_sort (not_below 1)).
  - apply List.Forall_forall. intros r [_ Hr]%filter_In.
    now apply Z.ltb_lt.
Qed.

Lemma check_missing_values_sorted_witness :
  exists out,
    data_quality.check_missing_values holes = Return out /\
    map (int_at 1) (values out) = [2; 1]%Z /\
    StronglySorted (fun r1 r2 => (int_at 1 r2 <= int_at 1 r1)%Z) (values out).
Proof.
  eexists. split; [vm_compute; reflexivity|]. split; [reflexivity|].
  apply (check_missing_values_sorted holes). vm_compute. reflexivity.
Defined.

(** X10. On a table with the four key columns [check_duplicates] returns
    the number of rows that repeat an earlier row in full and the number of
    rows that repeat an earlier row on the key; the first is at most the
    second. *)
Theorem check_duplicates_counts (df : DataFrame) :
  forallb (contains (columns df)) duplicate_cols = true ->
  data_quality.check_duplicates df =
    Return {| data_quality.duplicate_rows := full_duplicates df;
              data_quality.duplicate_flights := terms.duplicate_flights df |} /\
  full_duplicates df <= terms.duplicate_flights df.
Proof.
  intros Hcols. split; [|now apply full_duplicates_le_flights].
  unfold data_quality.check_duplicates.
  destruct (duplicated_subset_keys _ Hcols) as (mask & Hmask & Hn).
  fold duplicate_cols. rewrite Hmask. cbn [mbind result_bind].
  now rewrite Hn, duplicated_full.
Qed.

Lemma check_duplicates_counts_witness :
  data_quality.check_duplicates same_flight_twice =
    Return {| data_quality.duplicate_rows := 0;
              data_quality.duplicate_flights := 1 |}.
Proof.
  refine (eq_trans (proj1 (check_duplicates_counts same_flight_twice _)) _);
    vm_compute; reflexivity.
Defined.

(** X11. Unlike the validator, whose duplicate rule is skipped on a table
    that lacks a key column, [check_duplicates] raises a [KeyError] on such
    a table. *)
Theorem check_duplicates_missing_key_column (df : DataFrame) :
  forallb (contains (columns df)) duplicate_cols = false ->
  (exists k, data_quality.check_duplicates df = Raise (KeyError k)) /\
  duplicate_rule df [] = Return [].
Proof.
  intros Hcols. split.
  - destruct (get_locs_missing _ _ Hcols) as (k & _ & _ & Hk).
    exists k. unfold data_quality.check_duplicates, duplicated_subset.
    fold duplicate_cols. now rewrite Hk.
  - now rewrite duplicate_rule_Return, Hcols.
Qed.

Lemma check_duplicates_missing_key_column_witness :
  exists k, data_quality.check_duplicates two_fares = Raise (KeyError k).
Proof.
  apply (check_duplicates_missing_key_column two_fares). reflexivity.
Defined.





(** X14. Unlike the validator, whose fare rule is skipped on a table without
    the column of base fares, [verify_fare_calculation] raises a [KeyError]
    for that column. *)
Theorem verify_fare_calculation_missing_column
    (l : loc) (tolerance : Float64.t) (h : heap) (df : DataFrame) :
  h !! l = Some df ->
  contains (columns df) "Base Fare (BDT)" = false ->
  fst (data_quality.verify_fare_calculation l tolerance h)
    = Raise (KeyError "Base Fare (BDT)") /\
  fare_rule df [] = Return [].
Proof.
  intros Hl Hs. split.
  - unfold data_quality.verify_fare_calculation.
    rewrite (run_bind _ _ _ _ _ (run_copy _ _ _ Hl)).
    erewrite run_bind_Raise; [reflexivity|].
    rewrite (run_getitem_ref _ _ _ _ (lookup_insert_eq _ _ _)).
    now rewrite (getitem_missing _ _ Hs).
  - unfold fare_rule. cbn [forallb fare_cols]. now rewrite Hs.
Qed.

Lemma verify_fare_calculation_missing_column_witness :
  fst (data_quality.verify_fare_calculation the_table (Float64.of_Z 1)
         (heap_of one_fare))
    = Raise (KeyError "Base Fare (BDT)").
Proof.
  apply (verify_fare_calculation_missing_column the_table (Float64.of_Z 1)
           (heap_of one_fare) one_fare); reflexivity.
Defined.

(** X15. [generate_quality_summary] returns exactly on the tables that have
    the column of total fares with no text in it. *)
Theorem quality_summary_returns_iff_numeric_fare (df : DataFrame) :
  (exists r, data_quality.generate_quality_summary df = Return r) <->
  contains (columns df) "Total Fare (BDT)" = true /\
  numeric_column df "Total Fare (BDT)" = true.
Proof.
  split; [|intros [Ht Hnum]; now apply quality_summary_total].
  intros [r H]. unfold data_quality.generate_quality_summary in H.
  apply bind_Return in H as (s & Hs & H).
  split; [now apply getitem_Return in Hs|].
  apply bind_Return in H as (? & _ & H).
  apply bind_Return in H as (s2 & Hs2 & H).
  apply bind_Return in H as (? & _ & H).
  apply bind_Return in H as (s3 & Hs3 & H).
  apply bind_Return in H as (m & Hm & _).
  unfold Series_mean in Hm. apply bind_Return in Hm as (xs & Hxs & _).
  eapply numeric_column_of_data; [exact Hs3|]. eapply mapM_Return_Forall, Hxs.
Qed.

(** X16. On a table with rows, the quality score is 100 exactly when the
    table has no missing value and no duplicated row. *)
Theorem quality_score_100_iff_clean
    (df : DataFrame) (q : data_quality.QualitySummary) :
  data_quality.generate_quality_summary df = Return q ->
  len df <> 0 ->
  (Float64.eqb (data_quality.quality_score q) (Float64.of_Z 100) = true <->
   data_quality.missing_values q = 0 /\ data_quality.duplicates q = 0).
Proof.
  intros [Ht ->]%quality_summary_Return Hrows.
  cbn [data_quality.quality_score data_quality.missing_values
       data_quality.duplicates].
  pose proof (contains_shape1 _ _ Ht) as Hcols.
  rewrite (quality_score_cells _ _ _ _ Hrows Hcols).
  unfold Float64.eqb, Float64.of_Z, cell_score. rewrite Qeq_bool_iff.
  destruct (Z.of_nat (len df * shape1 df)) as [|p|p] eqn:Hp; [nia| |lia].
  rewrite (cell_score_100 _ p) by lia. lia.
Qed.

Lemma quality_score_100_iff_clean_witness :
  exists q,
    data_quality.generate_quality_summary two_fares = Return q /\
    Float64.eqb (data_quality.quality_score q) (Float64.of_Z 100) = true.
Proof.
  eexists. split; [vm_compute; reflexivity|].
  apply (quality_score_100_iff_clean two_fares);
    [vm_compute; reflexivity | discriminate | split; reflexivity].
Defined.

(** X17. The summary of the quality script and the statistics of the
    validator agree on the same table: same numbers of rows and columns,
    same number of duplicated rows, and the summary's number of missing
    values is the sum of the validator's counts per column. *)
Theorem quality_summary_agrees_with_stats
    (self : FlightDataValidator) (df : DataFrame) (r : Results)
    (q : data_quality.QualitySummary) :
  validate self df = Return r ->
  data_quality.generate_quality_summary df = Return q ->
  exists st,
    stats r = Some st /\
    data_quality.total_rows q = total_rows st /\
    data_quality.total_columns q = total_columns st /\
    data_quality.duplicates q = duplicate_rows st /\
    data_quality.missing_values q = sum_list (map snd (missing_values st)).
Proof.
  intros (ws & st & _ & Hst & ->)%validate_Return [_ ->]%quality_summary_Return.
  exists st. cbn.
  apply calculate_stats_Return in Hst as (-> & -> & -> & -> & _).
  repeat split.
Qed.

Lemma quality_summary_agrees_with_stats_witness :
  exists r q st,
    validate init two_fares = Return r /\
    data_quality.generate_quality_summary two_fares = Return q /\
    stats r = Some st /\
    data_quality.total_rows q = total_rows st.
Proof.
  destruct (validate init two_fares) as [r|] eqn:Hr; [|discriminate].
  destruct (data_quality.generate_quality_summary two_fares) as [q|] eqn:Hq;
    [|discriminate].
  destruct (quality_summary_agrees_with_stats init two_fares r q Hr Hq)
    as (st & Hst & Hrows & _).
  exists r, q, st. repeat split; assumption.
Defined.

(** ** The analysis script *)

(** X18. On a table whose columns Source and Destination hold strings or
    missing values, [create_route_feature] returns a new table and leaves
    its argument as it was: the new table has the rows of the old one with
    the cell "source → destination" under Route (a missing value when either
    end is missing); the column is put in place when the table already had
    one of that name, and at the end otherwise. *)
Theorem create_route_feature_adds_route (l : loc) (h : heap) (df : DataFrame) :
  h !! l = Some df ->
  well_formed df = true ->
  contains (columns df) "Source" = true ->
  contains (columns df) "Destination" = true ->
  dtype_at df "Source" = object ->
  text_column df "Source" = true ->
  text_column df "Destination" = true ->
  exists l' h' out,
    analysis.create_route_feature l h = (Return l', h') /\
    h !! l' = None /\ h' !! l' = Some out /\ h' !! l = Some df /\
    columns out = (if contains (columns df) "Route" then columns df
                   else columns df ++ ["Route"]) /\
    values out = map (fun row => set_cell df "Route" (route_cell df row) row)
                     (values df).
Proof.
  intros Hl Hwf Hs Hd Hobj Hts Htd.
  set (t := fresh (dom h)).
  assert (h !! t = None) as Hfresh by apply fresh_not_in.
  assert (l <> t) as Hlt by (intros ->; congruence).
  set (h1 := <[t := df]> h).
  assert (h1 !! t = Some df) as H1t by apply lookup_insert_eq.
  unfold analysis.create_route_feature.
  rewrite (run_bind _ _ _ _ _ (run_copy _ _ _ Hl)). fold t h1.
  destruct (getitem_data _ _ Hs) as [ds Es].
  destruct (getitem_data _ _ Hd) as [dd Ed].
  unfold dtype_at in Hobj. rewrite Es in Hobj. cbn in Hobj. subst ds.
  apply text_column_cells in Hts, Htd.
  set (left := fun row => match cell_at df "Source" row with
                          | Str a => Str (a +:+ " → ")
                          | _ => nan
                          end).
  assert (Series_add_str {| dtype_ := object; data := map (cell_at df "Source") (values df) |}
                         " → "
          = Return {| dtype_ := object; data := map left (values df) |}) as Eleft.
  { unfold Series_add_str. cbn [dtype_ data]. rewrite mapM_map_compose.
    erewrite mapM_map; [reflexivity|].
    eapply Forall_impl; [|exact Hts]. intros row [[s Hrow]|Hrow]; unfold left;
      rewrite Hrow; reflexivity. }
  assert (Series_add_skipna {| dtype_ := object; data := map left (values df) |}
                            {| dtype_ := dd; data := map (cell_at df "Destination") (values df) |}
          = Return {| dtype_ := object; data := map (route_cell df) (values df) |}) as Eroute.
  { unfold Series_add_skipna. cbn [dtype_ data result_type].
    rewrite (zip_with_result_map add_skipna (route_cell df)); [reflexivity|].
    rewrite List.Forall_forall in *. intros row Hrow.
    unfold left, route_cell.
    destruct (Hts row Hrow) as [[a ->]| ->], (Htd row Hrow) as [[b ->]| ->];
      reflexivity. }
  erewrite run_bind; [|rewrite (run_getitem_ref _ _ _ _ H1t), Es; reflexivity].
  erewrite run_bind; [|unfold lift; rewrite Eleft; reflexivity].
  erewrite run_bind; [|rewrite (run_getitem_ref _ _ _ _ H1t), Ed; reflexivity].
  erewrite run_bind; [|unfold lift; rewrite Eroute; reflexivity].
  erewrite run_bind; [|apply (run_setitem_ref _ _ _ _ _ H1t)].
  eexists t, _, _. split; [reflexivity|]. split; [exact Hfresh|].
  split; [apply lookup_insert_eq|].
  split; [unfold h1; now rewrite !lookup_insert_ne by congruence|].
  split; [apply columns_setitem | apply setitem_map].
Qed.

Lemma create_route_feature_adds_route_witness :
  exists l' h' out,
    analysis.create_route_feature the_table (heap_of same_flight_twice)
      = (Return l', h') /\
    h' !! l' = Some out /\
    h' !! the_table = Some same_flight_twice /\
    map (fun row => nth 5 row nan) (values out)
      = [Str "DAC → CXB"; Str "DAC → CXB"].
Proof.
  destruct (create_route_feature_adds_route the_table (heap_of same_flight_twice)
              same_flight_twice eq_refl eq_refl eq_refl eq_refl eq_refl eq_refl
              eq_refl)
    as (l' & h' & out & Hrun & _ & Hout & Hin & _ & Hv).
  exists l', h', out. repeat (split; [assumption|]).
  rewrite Hv. vm_compute. reflexivity.
Defined.

(** X19. Whatever its outcome, [create_route_feature] leaves every table
    that was on the heap, its argument among them, as it was: the new column
    is written into the copy. *)
Theorem create_route_feature_leaves_input (l : loc) (h : heap) :
  preserves h (snd (analysis.create_route_feature l h)).
Proof.
  unfold analysis.create_route_feature.
  apply keeps_copy_then. intros t Ht.
  repeat first
    [ apply keeps_getitem_ref | apply keeps_lift | apply keeps_ret
    | now apply keeps_setitem_ref
    | apply keeps_bind; [|intros ?] ].
Qed.

(** X20. On a table without the column Source [create_route_feature] raises
    a [KeyError] for it. *)
Theorem create_route_feature_missing_source (l : loc) (h : heap) (df : DataFrame) :
  h !! l = Some df ->
  contains (columns df) "Source" = false ->
  fst (analysis.create_route_feature l h) = Raise (KeyError "Source").
Proof.
  intros Hl Hs. unfold analysis.create_route_feature.
  rewrite (run_bind _ _ _ _ _ (run_copy _ _ _ Hl)).
  erewrite run_bind_Raise; [reflexivity|].
  rewrite (run_getitem_ref _ _ _ _ (lookup_insert_eq _ _ _)).
  now rewrite (getitem_missing _ _ Hs).
Qed.

Lemma create_route_feature_missing_source_witness :
  fst (analysis.create_route_feature the_table (heap_of two_fares))
    = Raise (KeyError "Source").
Proof.
  apply (create_route_feature_missing_source the_table (heap_of two_fares)
           two_fares); reflexivity.
Defined.

End Further.
